(** * Face-match attendance workflow of the student attendance app

    A shallow embedding of the attendance recorder ([executeAttendance] and its
    inner [recordAttendance]), of the recognition loop of [AttendancePage]
    ([startDetectionLoop], [startFastAttendance]) and of the registration
    quality gate ([startFaceDetection] of [FaceRegistrationPage]) in
    [src/index.tsx], with the properties the specification states about them.
    The instances of the scan pages that come and go over one store are
    modelled by [World]. It also embeds the actions that write the student
    directory, the capture of a face, the reports page (join, filters, pages,
    summary) and the counters of the dashboard, with properties read off the
    code.

    JavaScript values are modelled as follows: student ids and millisecond
    clock readings are integers ([Z]), which are the program's numbers as
    long as they are safe integers ([maxSafeInteger]); strings are [string], compared as
    JavaScript compares them (code unit by code unit, which on the ASCII
    [HH:MM] strings of the application is byte order); [null] is [None];
    numbers that are genuinely fractional (box sizes, area ratios) are IEEE 754
    binary64 floats, the kernel's [float]. *)

From Stdlib Require Import ZArith String Ascii Floats.
From stdpp Require Import base tactics option list strings pretty gmap.

Local Open Scope string_scope.
Local Open Scope list_scope.
Local Open Scope Z_scope.

(* 0.05 and 0.4 are read as JavaScript reads them: the nearest binary64 value. *)
Local Set Warnings "-inexact-float".

(** ** Data model *)

(** [AttendanceRecord['status']]. *)
Inductive Status : Type := Present | Late | Absent | EarlyLeave.

Global Instance Status_eq_dec : EqDecision Status.
Proof. solve_decision. Defined.

(** An element of [mockAttendance]: [AttendanceRecord & { student_id: number }]. *)
Record AttendanceRecord : Type := mkRecord {
  student_id : Z;
  date : string;
  checkIn : option string;
  checkOut : option string;
  status : Status
}.

Global Instance AttendanceRecord_eq_dec : EqDecision AttendanceRecord.
Proof. solve_decision. Defined.

(** The fields of [Student] that the workflow reads. *)
Record Student : Type := mkStudent {
  id : Z;
  firstName : string;
  lastName : string
}.

Global Instance Student_eq_dec : EqDecision Student.
Proof. solve_decision. Defined.

(** The two thresholds of [mockSettings] that the recorder reads. *)
Record Settings : Type := mkSettings {
  lateTime : string;
  checkOutTime : string
}.

(** The [mode] prop of [AttendancePage]. *)
Inductive Mode : Type := checkin | checkout.

(** What [recordAttendance] returns: [{ error }] or [{ time, status }]. *)
Inductive Outcome : Type :=
  | Rejected (error : string)
  | Recorded (time : string) (st : Status).

(** ** String comparison and template literals *)

(** [a > b] and [a < b] on two JavaScript strings. *)
Definition js_gt (a b : string) : bool := String.ltb b a.
Definition js_lt (a b : string) : bool := String.ltb a b.

(** [`${v}`] for a value that is a string or [null]. *)
Definition template (v : option string) : string :=
  match v with
  | Some s => s
  | None => "null"
  end.

Definition alreadyCheckedIn : string :=
  "คุณได้ลงเวลาเข้าเรียนไปแล้ววันนี้ เวลา ".

Definition noCheckInFound : string :=
  "ไม่พบข้อมูลลงเวลาเข้าเรียนวันนี้".

(** ** The attendance recorder *)

(** The predicate of [mockAttendance.findIndex]:
    [a.student_id === student.id && a.date === today]. *)
Definition same_day (sid : Z) (today : string) (a : AttendanceRecord) : Prop :=
  student_id a = sid ∧ date a = today.

Global Instance same_day_dec sid today a : Decision (same_day sid today a).
Proof. unfold same_day. apply _. Defined.

(** [findIndex]: the first index whose record satisfies the predicate,
    together with that record; [None] is the source's [-1]. *)
Definition findIndex (sid : Z) (today : string) (store : list AttendanceRecord)
  : option (nat * AttendanceRecord) :=
  list_find (same_day sid today) store.

(** The local [status] of [recordAttendance], computed before the store is
    consulted. *)
Definition computeStatus (mode : Mode) (timeNow : string) (cfg : Settings) : Status :=
  let st := Present in
  let st := match mode with
            | checkin => if js_gt timeNow (lateTime cfg) then Late else st
            | checkout => st
            end in
  match mode with
  | checkout => if js_lt timeNow (checkOutTime cfg) then EarlyLeave else st
  | checkin => st
  end.

(** The two assignments of the check-out branch on the record found. *)
Definition applyCheckOut (timeNow : string) (st : Status) (r : AttendanceRecord)
  : AttendanceRecord :=
  let r1 := mkRecord (student_id r) (date r) (checkIn r) (Some timeNow) (status r) in
  if decide (status r1 ≠ Late)
  then mkRecord (student_id r1) (date r1) (checkIn r1) (checkOut r1) st
  else r1.

(** [recordAttendance], with the two readings of [new Date()] ([today],
    [timeNow]), the settings and the store made explicit. It returns the
    outcome and the store after the call. *)
Definition recordAttendance (mode : Mode) (student : Student)
    (today timeNow : string) (cfg : Settings) (store : list AttendanceRecord)
  : Outcome * list AttendanceRecord :=
  let existingRecordIndex := findIndex (id student) today store in
  let st := computeStatus mode timeNow cfg in
  match mode with
  | checkin =>
      match existingRecordIndex with
      | Some (_, r) => (Rejected (alreadyCheckedIn ++ template (checkIn r)), store)
      | None =>
          let newRecord := mkRecord (id student) today (Some timeNow) None st in
          (Recorded timeNow st, newRecord :: store)
      end
  | checkout =>
      match existingRecordIndex with
      | Some (i, r) => (Recorded timeNow st, <[i := applyCheckOut timeNow st r]> store)
      | None => (Rejected noCheckInFound, store)
      end
  end.

(** One commit request as the recorder sees it. *)
Record Request : Type := mkRequest {
  req_mode : Mode;
  req_student : Student;
  req_today : string;
  req_timeNow : string;
  req_settings : Settings
}.

Definition commit (store : list AttendanceRecord) (q : Request)
  : Outcome * list AttendanceRecord :=
  recordAttendance (req_mode q) (req_student q) (req_today q) (req_timeNow q)
    (req_settings q) store.

(** The store after a sequence of commits, oldest first. *)
Definition commits (store : list AttendanceRecord) (qs : list Request)
  : list AttendanceRecord :=
  foldl (λ st q, snd (commit st q)) store qs.

(** ** The recognition loop of [AttendancePage] *)

(** [status.type] of the page. *)
Inductive StatusType : Type :=
  detecting | ready | recognized | processing | success | error.

(** An entry of [recentActivities]. *)
Record RecentActivity : Type := mkActivity {
  act_student : Student;
  act_time : string;
  act_status : Status
}.

(** The React state of the page that the loop writes. *)
Record Display : Type := mkDisplay {
  statusType : StatusType;
  currentStudent : option Student;
  recentActivities : list RecentActivity;
  countToday : nat;
  facesProcessed : nat
}.

(** One element of [resizedDetections] as the loop body uses it.
    [bestMatch] is [findBestMatch(...).label] after [parseInt]: the matcher is
    built from labels that are the decimal renderings of student ids, so a
    label is either ['unknown'] ([None]) or an id. [clock] is what
    [Date.now()] returns when the loop body reaches this detection. *)
Record Detection : Type := mkDetection {
  bestMatch : option Z;
  clock : Z
}.

(** One mounted [AttendancePage]: its refs, the timers and promises it has
    pending in the event loop, the attendance store, and the display.
    [startedCommits] is a history variable that is not in the source: the
    student id and clock reading of every recognition for which
    [startFastAttendance] went past its guard, newest first. *)
Record Session : Type := mkSession {
  isProcessing : bool;                  (* isProcessingRef.current *)
  recognitionCooldown : gmap string Z;  (* recognitionCooldownRef.current *)
  awaitingDetection : nat;              (* ticks suspended at await detectAllFaces *)
  countdownTimers : list Student;       (* pending setTimeout(executeAttendance, 500) *)
  apiCalls : list Student;              (* pending apiCall(recordAttendance) *)
  settleTimers : nat;                   (* pending setTimeout(release, 2000) *)
  mockAttendance : list AttendanceRecord;
  display : Display;
  startedCommits : list (Z * Z)
}.

Definition initialDisplay : Display := mkDisplay detecting None [] 0 0.

Definition initialSession (store : list AttendanceRecord) : Session :=
  mkSession false ∅ 0 [] [] 0 store initialDisplay [].

(** What the event loop can run next. *)
Inductive Event : Type :=
  | TimerFires (cameraReady : bool)
      (* the 200 ms interval callback, up to its await; [cameraReady] says that
         faceapi, the playing video, the matcher and the overlay are there *)
  | DetectionResolves (mockStudents : list Student) (detections : list Detection)
      (* the rest of an interval callback, after detectAllFaces resolved *)
  | CountdownFires
      (* the 500 ms timer of startFastAttendance: executeAttendance up to its await *)
  | ApiCallFires (today timeNow : string) (cfg : Settings)
      (* the timer inside apiCall, then the rest of executeAttendance *)
  | SettleFires.
      (* the 2000 ms timer at the end of executeAttendance *)

Definition setDisplay (d : Display) (s : Session) : Session :=
  mkSession (isProcessing s) (recognitionCooldown s) (awaitingDetection s)
    (countdownTimers s) (apiCalls s) (settleTimers s) (mockAttendance s) d
    (startedCommits s).

Definition setReady (d : Display) : Display :=
  mkDisplay ready None (recentActivities d) (countToday d) (facesProcessed d).

(** [!recognitionCooldownRef.current[key] || now - recognitionCooldownRef.current[key] > 8000];
    [!v] holds of a missing entry and of the number 0. *)
Definition cooldownElapsed (cooldown : gmap string Z) (key : string) (now : Z) : bool :=
  match (cooldown !! key : option Z) with
  | None => true
  | Some t => (t =? 0) || (8000 <? now - t)
  end.

(** [startFastAttendance]; [now] only feeds the history variable. *)
Definition startFastAttendance (student : Student) (now : Z) (s : Session) : Session :=
  if isProcessing s then s
  else mkSession true (recognitionCooldown s) (awaitingDetection s)
         (countdownTimers s ++ [student]) (apiCalls s) (settleTimers s)
         (mockAttendance s) (display s) ((id student, now) :: startedCommits s).

(** The body of [for (const detection of resizedDetections)]. *)
Definition onDetection (mockStudents : list Student) (s : Session) (d : Detection)
  : Session :=
  match bestMatch d with
  | Some studentId =>
      match List.find (λ st, bool_decide (id st = studentId)) mockStudents with
      | Some student =>
          let now := clock d in
          let cooldownKey := pretty (id student) in
          if cooldownElapsed (recognitionCooldown s) cooldownKey now then
            let s1 :=
              mkSession (isProcessing s) (<[cooldownKey := now]> (recognitionCooldown s))
                (awaitingDetection s) (countdownTimers s) (apiCalls s)
                (settleTimers s) (mockAttendance s)
                (mkDisplay recognized (Some student) (recentActivities (display s))
                   (countToday (display s)) (facesProcessed (display s)))
                (startedCommits s) in
            startFastAttendance student now s1
          else s
      | None => s
      end
  | None => if isProcessing s then s else setDisplay (setReady (display s)) s
  end.

Section Loop.

Variable mode : Mode.

(** The interval callback up to [await faceapi.detectAllFaces(...)]. *)
Definition timerFires (cameraReady : bool) (s : Session) : Session :=
  if negb cameraReady || isProcessing s then s
  else mkSession (isProcessing s) (recognitionCooldown s) (S (awaitingDetection s))
         (countdownTimers s) (apiCalls s) (settleTimers s) (mockAttendance s)
         (display s) (startedCommits s).

(** The interval callback after the await. *)
Definition detectionResolves (mockStudents : list Student)
    (detections : list Detection) (s : Session) : Session :=
  match awaitingDetection s with
  | O => s
  | S n =>
      let d := display s in
      let s1 :=
        mkSession (isProcessing s) (recognitionCooldown s) n (countdownTimers s)
          (apiCalls s) (settleTimers s) (mockAttendance s)
          (mkDisplay (statusType d) (currentStudent d) (recentActivities d)
             (countToday d) (S (facesProcessed d)))
          (startedCommits s) in
      match detections with
      | [] => if isProcessing s1 then s1 else setDisplay (setReady (display s1)) s1
      | _ => foldl (onDetection mockStudents) s1 detections
      end
  end.

(** The 500 ms timer: [executeAttendance(student)] up to [await apiCall(...)]. *)
Definition countdownFires (s : Session) : Session :=
  match countdownTimers s with
  | [] => s
  | student :: rest =>
      let d := display s in
      mkSession (isProcessing s) (recognitionCooldown s) (awaitingDetection s) rest
        (apiCalls s ++ [student]) (settleTimers s) (mockAttendance s)
        (mkDisplay processing (currentStudent d) (recentActivities d)
           (countToday d) (facesProcessed d))
        (startedCommits s)
  end.

(** The timer of [apiCall] runs [recordAttendance]; the rest of
    [executeAttendance] then updates the display and arms the release timer. *)
Definition apiCallFires (today timeNow : string) (cfg : Settings) (s : Session)
  : Session :=
  match apiCalls s with
  | [] => s
  | student :: rest =>
      let result := recordAttendance mode student today timeNow cfg (mockAttendance s) in
      let d := display s in
      let d' :=
        match fst result with
        | Recorded time st =>
            mkDisplay success (currentStudent d)
              (mkActivity student time st :: take 7 (recentActivities d))
              (S (countToday d)) (facesProcessed d)
        | Rejected _ =>
            mkDisplay error (currentStudent d) (recentActivities d)
              (countToday d) (facesProcessed d)
        end in
      mkSession (isProcessing s) (recognitionCooldown s) (awaitingDetection s)
        (countdownTimers s) rest (S (settleTimers s)) (snd result) d'
        (startedCommits s)
  end.

(** The 2000 ms timer releases the guard. *)
Definition settleFires (s : Session) : Session :=
  match settleTimers s with
  | O => s
  | S n =>
      mkSession false (recognitionCooldown s) (awaitingDetection s)
        (countdownTimers s) (apiCalls s) n (mockAttendance s)
        (setReady (display s)) (startedCommits s)
  end.

Definition step (s : Session) (e : Event) : Session :=
  match e with
  | TimerFires cameraReady => timerFires cameraReady s
  | DetectionResolves mockStudents detections =>
      detectionResolves mockStudents detections s
  | CountdownFires => countdownFires s
  | ApiCallFires today timeNow cfg => apiCallFires today timeNow cfg s
  | SettleFires => settleFires s
  end.

Definition run (s : Session) (events : list Event) : Session :=
  foldl step s events.

End Loop.

(** ** The registration quality gate of [FaceRegistrationPage] *)

(** The size of [detection.detection.box]. *)
Record Box : Type := mkBox {
  box_width : float;
  box_height : float
}.

(** One element of [resizedDetections]: its box and its 128-number descriptor. *)
Record FaceDetection : Type := mkFace {
  box : Box;
  descriptor : list float
}.

(** The five messages [startFaceDetection] can set. *)
Inductive GateStatus : Type :=
  | GoodFace        (* type 'detected' *)
  | FaceTooSmall    (* type 'no-face' *)
  | FaceTooLarge    (* type 'no-face' *)
  | MultipleFaces   (* type 'no-face' *)
  | NoFace.         (* type 'no-face' *)

(** The React state the gate writes. *)
Record Gate : Type := mkGate {
  faceDescriptor : option (list float);
  showCaptureButton : bool;
  gateStatus : GateStatus
}.

(** [(box.width * box.height) / (video.clientWidth * video.clientHeight)]. *)
Definition faceSizeRatio (b : Box) (clientWidth clientHeight : float) : float :=
  ((box_width b * box_height b) / (clientWidth * clientHeight))%float.

(** The interval callback of [startFaceDetection] after its await. *)
Definition onFaces (resizedDetections : list FaceDetection)
    (clientWidth clientHeight : float) : Gate :=
  match resizedDetections with
  | [detection] =>
      let ratio := faceSizeRatio (box detection) clientWidth clientHeight in
      if ((0.05 <? ratio) && (ratio <? 0.4))%float
      then mkGate (Some (descriptor detection)) true GoodFace
      else mkGate None false
             (if (ratio <=? 0.05)%float then FaceTooSmall else FaceTooLarge)
  | _ =>
      mkGate None false
        (if (1 <? length resizedDetections)%nat then MultipleFaces else NoFace)
  end.

(** The whole callback: it returns early, leaving the state alone, when
    faceapi, the playing video or the overlay is missing. *)
Definition registrationTick (cameraReady : bool)
    (resizedDetections : list FaceDetection) (clientWidth clientHeight : float)
    (g : Gate) : Gate :=
  if cameraReady then onFaces resizedDetections clientWidth clientHeight else g.

(** ** Specification-level definitions *)

(** Number of records of one student and day that carry a check-in time. *)
Definition checkedIn (sid : Z) (day : string) (a : AttendanceRecord) : bool :=
  bool_decide (same_day sid day a) && bool_decide (is_Some (checkIn a)).

Definition countCheckIns (sid : Z) (day : string) (store : list AttendanceRecord) : nat :=
  length (List.filter (checkedIn sid day) store).

(** Number of records of one student and day, with or without a check-in. *)
Definition countRecords (sid : Z) (day : string) (store : list AttendanceRecord) : nat :=
  length (List.filter (λ a, bool_decide (same_day sid day a)) store).

(** The store invariant of the data model: one record per student and day. *)
Definition oneRecordPerDay (store : list AttendanceRecord) : Prop :=
  ∀ sid day, (countRecords sid day store ≤ 1)%nat.

(** Two records that agree on what identifies a check-in. *)
Definition sameEntry (a b : AttendanceRecord) : Prop :=
  student_id a = student_id b ∧ date a = date b ∧ checkIn a = checkIn b.

(** Commit attempts that have started and have not yet released the guard. *)
Definition inFlight (s : Session) : nat :=
  (length (countdownTimers s) + length (apiCalls s) + settleTimers s)%nat.

(** What one pass of the loop body can do to a session. *)
Inductive Recognition (s s' : Session) (d : Detection) : Prop :=
  | NotAccepted :
      recognitionCooldown s' = recognitionCooldown s →
      isProcessing s' = isProcessing s →
      countdownTimers s' = countdownTimers s →
      startedCommits s' = startedCommits s →
      Recognition s s' d
  | AcceptedAndDropped (student : Student) :
      bestMatch d = Some (id student) →
      cooldownElapsed (recognitionCooldown s) (pretty (id student)) (clock d) = true →
      recognitionCooldown s' = <[pretty (id student) := clock d]> (recognitionCooldown s) →
      isProcessing s = true → isProcessing s' = true →
      countdownTimers s' = countdownTimers s →
      startedCommits s' = startedCommits s →
      Recognition s s' d
  | AcceptedAndStarted (student : Student) :
      bestMatch d = Some (id student) →
      cooldownElapsed (recognitionCooldown s) (pretty (id student)) (clock d) = true →
      recognitionCooldown s' = <[pretty (id student) := clock d]> (recognitionCooldown s) →
      isProcessing s = false → isProcessing s' = true →
      countdownTimers s' = (countdownTimers s ++ [student]) →
      startedCommits s' = (id student, clock d) :: startedCommits s →
      Recognition s s' d.

(** The guard is set exactly while one commit attempt is in flight. *)
Definition guardInv (s : Session) : Prop :=
  inFlight s = if isProcessing s then 1%nat else 0%nat.

(** Two commit attempts for one student are more than 8000 ms apart
    (the log is newest first). *)
Definition spaced (log : list (Z * Z)) : Prop :=
  ∀ (i j : nat) (sid t2 t1 : Z),
    (i < j)%nat → log !! i = Some (sid, t2) → log !! j = Some (sid, t1) →
    8000 < t2 - t1.

(** Stored timestamps are clock readings other than 0, and no commit attempt
    of a student is younger than the timestamp stored for that student. *)
Definition cooldownInv (s : Session) : Prop :=
  (∀ (k : string) (t : Z), recognitionCooldown s !! k = Some t → t ≠ 0) ∧
  (∀ sid t, (sid, t) ∈ startedCommits s →
     ∃ t', recognitionCooldown s !! pretty sid = Some t' ∧ t ≤ t') ∧
  spaced (startedCommits s).

(** Clock readings are milliseconds since 1970 and never 0 in a running
    browser. *)
Definition clocksValid (e : Event) : Prop :=
  match e with
  | DetectionResolves _ detections => Forall (λ d, clock d ≠ 0) detections
  | _ => True
  end.

(** ** Lexicographic order, as the specification words it *)

(** [lex_lt a b]: [a] is a proper prefix of [b], or at the first position
    where they differ the character of [a] has the smaller code. *)
Inductive lex_lt : string → string → Prop :=
  | lex_lt_prefix c t : lex_lt EmptyString (String c t)
  | lex_lt_head c d s t :
      (nat_of_ascii c < nat_of_ascii d)%nat → lex_lt (String c s) (String d t)
  | lex_lt_tail c s t : lex_lt s t → lex_lt (String c s) (String c t).

(** ** The two claims that fail on the code, as stated *)

(** C8, the claim as stated: a check-out for a student whose record of the
    day already has a check-out time is rejected and changes nothing. *)
Definition repeatedCheckOutRejected
    (stu : Student) (today timeNow : string) (cfg : Settings)
    (store : list AttendanceRecord) : Prop :=
  ∀ i r t, findIndex (id stu) today store = Some (i, r) → checkOut r = Some t →
    ∃ e, recordAttendance checkout stu today timeNow cfg store = (Rejected e, store).

(** C9, the claim as stated: when a detection call is outstanding, the
    interval callback issues no further detection call. *)
Definition detectionCallsNeverOverlap (mode : Mode) (s : Session) : Prop :=
  (0 < awaitingDetection s)%nat →
  ∀ cameraReady,
    awaitingDetection (step mode s (TimerFires cameraReady)) = awaitingDetection s.

(** ** Sample data *)

Definition cfg0 : Settings := mkSettings "08:30" "16:00".
Definition somchai : Student := mkStudent 1 "Somchai" "Jaidee".

Definition store1 : list AttendanceRecord :=
  [mkRecord 2 "2024-05-01" (Some "08:40") None Late].

Definition storeLate : list AttendanceRecord :=
  [mkRecord 4 "2024-05-01" (Some "07:55") None Present;
   mkRecord 1 "2024-05-01" (Some "08:45") None Late].

Definition storeOut : list AttendanceRecord :=
  [mkRecord 1 "2024-05-01" (Some "08:05") (Some "15:50") EarlyLeave].

Definition pitiStudent : Student := mkStudent 4 "Piti" "Yindee".
Definition directory : list Student := [somchai; pitiStudent].

Definition scenario : list Event :=
  [ TimerFires true;
    DetectionResolves directory [mkDetection (Some 1) 1000];
    TimerFires true;
    CountdownFires;
    ApiCallFires "2024-05-01" "08:05" cfg0;
    SettleFires;
    TimerFires true;
    DetectionResolves directory [mkDetection (Some 1) 4000] ].

Definition afterFirstTick : Session :=
  run checkin (initialSession []) [TimerFires true].

(** Two faces in one tick: the first locks the session, the second passes its
    cooldown check with the flag already set. *)
Definition lockedBySomchai : Session :=
  onDetection directory
    (run checkin (initialSession []) [TimerFires true])
    (mkDetection (Some 1) 1000).

(** ** Further specification-level definitions *)

(** A detection that names nobody of the directory: the matcher answered
    ['unknown'], or its label is the id of a student who is no longer in
    [mockStudents]. *)
Definition unmatched (mockStudents : list Student) (d : Detection) : Prop :=
  match bestMatch d with
  | None => True
  | Some studentId =>
      List.find (λ st, bool_decide (id st = studentId)) mockStudents = None
  end.

(** The records of one student and day, in store order. *)
Definition recordsOf (sid : Z) (day : string) (store : list AttendanceRecord)
  : list AttendanceRecord :=
  filter (same_day sid day) store.

(** Two sessions that differ at most in what the page displays and in the
    number of detection calls awaited. *)
Definition sameCore (s s' : Session) : Prop :=
  isProcessing s' = isProcessing s ∧
  recognitionCooldown s' = recognitionCooldown s ∧
  countdownTimers s' = countdownTimers s ∧
  apiCalls s' = apiCalls s ∧
  settleTimers s' = settleTimers s ∧
  mockAttendance s' = mockAttendance s ∧
  startedCommits s' = startedCommits s.

(** ** The student directory: [mockStudents] and the actions that write it *)

Module Directory.

(** [Student['status']]. *)
Inductive StudentStatus : Type := active | inactive | graduated.

(** An element of [mockStudents], with every field of the [Student] type;
    an optional field that is missing is [None]. *)
Record Student : Type := mkStudent {
  id : Z;
  studentId : string;
  firstName : string;
  lastName : string;
  nickname : string;
  classLevel : string;
  classRoom : string;
  status : StudentStatus;
  faceRegistered : bool;
  profileImage : option string;
  email : option string;
  phone : option string;
  parentPhone : option string;
  address : option string;
  faceDescriptor : option (list float)
}.

(** [formData] of [StudentModal]: every field is the text of an input, the
    status the value of a select with the three options. *)
Record FormData : Type := mkFormData {
  form_id : string;
  form_studentId : string;
  form_firstName : string;
  form_lastName : string;
  form_nickname : string;
  form_classLevel : string;
  form_classRoom : string;
  form_status : StudentStatus;
  form_email : string;
  form_phone : string;
  form_parentPhone : string;
  form_address : string
}.

(** The two module-level variables the actions write. *)
Record State : Type := mkState {
  mockStudents : list Student;
  nextStudentId : Z
}.

(** What an action returns: [{ error }] or [{ message: "Success" }]. *)
Inductive ActionResult : Type :=
  | Failed (error : string)
  | Succeeded.

(** [mockStudents.findIndex(s => s.id === sid)], with the student found. *)
Definition findIndex (sid : Z) (students : list Student) : option (nat * Student) :=
  list_find (λ s, id s = sid) students.

(** [nextStudentId] as the module computes it when it loads:
    [Math.max(...ids) + 1], or 1 for an empty directory. *)
Definition initialNextStudentId (students : list Student) : Z :=
  match students with
  | [] => 1
  | s :: rest => foldl Z.max (id s) (id <$> rest) + 1
  end.

Definition initialState (students : list Student) : State :=
  mkState students (initialNextStudentId students).

(** [{ ...mockStudents[index], ...formData, id: student.id, status }]. *)
Definition updatedStudent (current : Student) (formData : FormData) (sid : Z) : Student :=
  mkStudent sid (form_studentId formData) (form_firstName formData)
    (form_lastName formData) (form_nickname formData) (form_classLevel formData)
    (form_classRoom formData) (form_status formData) (faceRegistered current)
    (profileImage current) (Some (form_email formData)) (Some (form_phone formData))
    (Some (form_parentPhone formData)) (Some (form_address formData))
    (faceDescriptor current).

(** [{ ...formData, id: nextStudentId++, faceRegistered: false, status }]. *)
Definition newStudent (formData : FormData) (sid : Z) : Student :=
  mkStudent sid (form_studentId formData) (form_firstName formData)
    (form_lastName formData) (form_nickname formData) (form_classLevel formData)
    (form_classRoom formData) (form_status formData) false
    None (Some (form_email formData)) (Some (form_phone formData))
    (Some (form_parentPhone formData)) (Some (form_address formData))
    None.

(** [saveStudentAction] of [StudentModal]; [student] is the modal's prop,
    [None] when a student is added. *)
Definition saveStudentAction (student : option Student) (formData : FormData)
    (d : State) : ActionResult * State :=
  match student with
  | Some student =>
      match findIndex (id student) (mockStudents d) with
      | Some (index, current) =>
          (Succeeded,
           mkState (<[index := updatedStudent current formData (id student)]>
                      (mockStudents d))
                   (nextStudentId d))
      | None => (Failed "Student not found for update.", d)
      end
  | None =>
      (Succeeded,
       mkState (newStudent formData (nextStudentId d) :: mockStudents d)
               (nextStudentId d + 1))
  end.

(** [deleteAction] of [handleDeleteStudent]: the filtered list is assigned
    before the lengths are compared. *)
Definition deleteStudentAction (student : Student) (d : State) : ActionResult * State :=
  let initialLength := length (mockStudents d) in
  let remaining := filter (λ s, id s ≠ id student) (mockStudents d) in
  let d' := mkState remaining (nextStudentId d) in
  if decide (length remaining = initialLength)
  then (Failed "Student not found.", d')
  else (Succeeded, d').

Definition setFace (registered : bool) (descriptor : option (list float)) (s : Student)
  : Student :=
  mkStudent (id s) (studentId s) (firstName s) (lastName s) (nickname s)
    (classLevel s) (classRoom s) (status s) registered (profileImage s)
    (email s) (phone s) (parentPhone s) (address s) descriptor.

(** [registerAction] of [handleCaptureFace]. *)
Definition registerAction (selectedStudent : Student) (descriptor : list float)
    (d : State) : ActionResult * State :=
  match findIndex (id selectedStudent) (mockStudents d) with
  | Some (index, current) =>
      (Succeeded,
       mkState (<[index := setFace true (Some descriptor) current]> (mockStudents d))
               (nextStudentId d))
  | None => (Failed "Student not found.", d)
  end.

(** [deleteAction] of [handleDeleteFace]. *)
Definition deleteFaceAction (sid : Z) (d : State) : ActionResult * State :=
  match findIndex sid (mockStudents d) with
  | Some (index, current) =>
      (Succeeded,
       mkState (<[index := setFace false None current]> (mockStudents d))
               (nextStudentId d))
  | None => (Failed "Face data not found.", d)
  end.

(** [uploadAction] of [UploadImageModal]. *)
Definition uploadAction (student : Student) (imageDataUrl : string) (d : State)
  : ActionResult * State :=
  match findIndex (id student) (mockStudents d) with
  | Some (index, current) =>
      (Succeeded,
       mkState (<[index :=
                    mkStudent (id current) (studentId current) (firstName current)
                      (lastName current) (nickname current) (classLevel current)
                      (classRoom current) (status current) (faceRegistered current)
                      (Some imageDataUrl) (email current) (phone current)
                      (parentPhone current) (address current)
                      (faceDescriptor current)]> (mockStudents d))
               (nextStudentId d))
  | None => (Failed "Student not found.", d)
  end.

(** The actions of the application that write the directory. *)
Inductive Action : Type :=
  | SaveStudent (student : option Student) (formData : FormData)
  | DeleteStudent (student : Student)
  | RegisterFace (selectedStudent : Student) (descriptor : list float)
  | DeleteFace (sid : Z)
  | UploadImage (student : Student) (imageDataUrl : string).

Definition perform (d : State) (a : Action) : ActionResult * State :=
  match a with
  | SaveStudent student formData => saveStudentAction student formData d
  | DeleteStudent student => deleteStudentAction student d
  | RegisterFace selectedStudent descriptor => registerAction selectedStudent descriptor d
  | DeleteFace sid => deleteFaceAction sid d
  | UploadImage student imageDataUrl => uploadAction student imageDataUrl d
  end.

(** The directory after a sequence of actions, oldest first. *)
Definition performAll (d : State) (actions : list Action) : State :=
  foldl (λ d a, snd (perform d a)) d actions.

(** [mockStudents.filter(s => s.faceRegistered && s.faceDescriptor)] of
    [startSystem]: the students the face matcher is built from. *)
Definition studentsWithFaces (students : list Student) : list Student :=
  filter (λ s, faceRegistered s = true ∧ is_Some (faceDescriptor s)) students.

(** The labelled descriptors handed to [faceapi.FaceMatcher]: the label is
    [`${s.id}`]. *)
Definition labeledDescriptors (students : list Student) : list (string * list float) :=
  (λ s, (pretty (id s), default [] (faceDescriptor s))) <$> studentsWithFaces students.

End Directory.

Global Instance StudentStatus_eq_dec : EqDecision Directory.StudentStatus.
Proof. solve_decision. Defined.

(** The part of a directory entry that the recognition loop reads. *)
Definition asStudent (s : Directory.Student) : Student :=
  mkStudent (Directory.id s) (Directory.firstName s) (Directory.lastName s).

(** Ids are unique and below the counter that numbers new students. *)
Definition idsFresh (d : Directory.State) : Prop :=
  NoDup (Directory.id <$> Directory.mockStudents d) ∧
  Forall (λ k, k < Directory.nextStudentId d) (Directory.id <$> Directory.mockStudents d).

(** [Number.MAX_SAFE_INTEGER]. Ids and the counter are JavaScript numbers;
    on integers of this range [+ 1] and [++] are exact, so that the integers
    of the model are the numbers of the program. *)
Definition maxSafeInteger : Z := 2 ^ 53 - 1.

Definition safeInteger (k : Z) : Prop := - maxSafeInteger ≤ k ≤ maxSafeInteger.

(** A student is marked as registered exactly when a descriptor is stored. *)
Definition faceConsistent (students : list Directory.Student) : Prop :=
  ∀ s, s ∈ students →
    (Directory.faceRegistered s = true ↔ is_Some (Directory.faceDescriptor s)).

(** Two directory entries with the same id and the same face data. *)
Definition sameFace (a b : Directory.Student) : Prop :=
  Directory.id a = Directory.id b ∧
  Directory.faceRegistered a = Directory.faceRegistered b ∧
  Directory.faceDescriptor a = Directory.faceDescriptor b.

(** The state of [FaceRegistrationPage] that a capture reads and writes,
    and the captures that wait for their [apiCall]: each holds the student
    and the descriptor that the handler read when the button was clicked. *)
Record RegistrationPage : Type := mkPage {
  selectedStudent : option Directory.Student;
  gate : Gate;
  pendingCaptures : list (Directory.Student * list float)
}.

(** [handleCaptureFace] from the click to its [await]: nothing but a toast
    when no student is selected or no descriptor is stored; otherwise
    [registerAction] is handed to [apiCall]. The state of the page is not
    changed, and the button stays enabled. *)
Definition handleCaptureFace (page : RegistrationPage) : RegistrationPage :=
  match selectedStudent page, faceDescriptor (gate page) with
  | Some student, Some descriptor =>
      mkPage (selectedStudent page) (gate page)
        (pendingCaptures page ++ [(student, descriptor)])
  | _, _ => page
  end.

(** The oldest pending capture resumes, 300 ms after its click:
    [registerAction] runs on the directory as it is then, and on success the
    selection, the capture control and the stored descriptor are reset. The
    first component is the result of the action, [None] when no capture was
    pending. *)
Definition captureResolves (page : RegistrationPage) (d : Directory.State)
  : option Directory.ActionResult * Directory.State * RegistrationPage :=
  match pendingCaptures page with
  | [] => (None, d, page)
  | (student, descriptor) :: rest =>
      let result := Directory.registerAction student descriptor d in
      match fst result with
      | Directory.Succeeded =>
          (Some (fst result), snd result,
           mkPage None (mkGate None false (gateStatus (gate page))) rest)
      | Directory.Failed _ =>
          (Some (fst result), snd result,
           mkPage (selectedStudent page) (gate page) rest)
      end
  end.

(** Sample directory. *)
Definition rowSomchai : Directory.Student :=
  Directory.mkStudent 1 "S001" "Somchai" "Jaidee" "Chai" "M.1" "1" Directory.active
    true None None None None None (Some [0.25%float; 0.5%float]).

Definition rowMana : Directory.Student :=
  Directory.mkStudent 3 "S003" "Mana" "Pakpian" "Na" "M.1" "2" Directory.active
    false None None None None None None.

Definition sampleDirectory : Directory.State :=
  Directory.initialState [rowSomchai; rowMana].

Definition sampleForm : Directory.FormData :=
  Directory.mkFormData "" "S007" "Chujai" "Klahan" "Jai" "M.2" "1" Directory.active
    "" "" "" "".

Definition goodFace : FaceDetection := mkFace (mkBox 200 200) [0.75%float].

(** ** The reports page *)

(** [a >= b] and [a <= b] on two JavaScript strings. *)
Definition js_ge (a b : string) : bool := negb (String.ltb a b).
Definition js_le (a b : string) : bool := negb (String.ltb b a).

(** The string value of an [AttendanceRecord['status']]. *)
Definition statusName (st : Status) : string :=
  match st with
  | Present => "Present"
  | Late => "Late"
  | Absent => "Absent"
  | EarlyLeave => "Early Leave"
  end.

(** [filters] of [ReportsPage]. *)
Record ReportFilters : Type := mkFilters {
  startDate : string;
  endDate : string;
  filterClassLevel : string;
  filterStatus : string;
  searchQuery : string
}.

(** A row of the report: the record, whose [student_id] the source drops
    after the lookup, and the student found for it. *)
Record ReportRow : Type := mkRow {
  row_record : AttendanceRecord;
  row_student : Directory.Student
}.

(** The [map] of [getReports]: the first student with the record's id, or
    [null]. *)
Definition reportRow (students : list Directory.Student) (record : AttendanceRecord)
  : option ReportRow :=
  match List.find (λ s, bool_decide (Directory.id s = student_id record)) students with
  | Some student => Some (mkRow record student)
  | None => None
  end.

Section Reports.

(** [String.prototype.toLowerCase] and [s.includes(t)] are taken as given. *)
Variable toLowerCase : string → string.
Variable includes : string → string → bool.

(** The predicate of the second [filter] of [getReports]. *)
Definition keepRow (filters : ReportFilters) (r : ReportRow) : bool :=
  let searchLower := toLowerCase (searchQuery filters) in
  js_ge (date (row_record r)) (startDate filters) &&
  js_le (date (row_record r)) (endDate filters) &&
  (String.eqb (filterClassLevel filters) "" ||
   String.eqb (Directory.classLevel (row_student r)) (filterClassLevel filters)) &&
  (String.eqb (filterStatus filters) "" ||
   String.eqb (statusName (status (row_record r))) (filterStatus filters)) &&
  (String.eqb (searchQuery filters) "" ||
   includes
     (toLowerCase (Directory.firstName (row_student r) ++ " " ++
                   Directory.lastName (row_student r))%string)
     searchLower ||
   includes (toLowerCase (Directory.studentId (row_student r))) searchLower).

(** [getReports]: join every record with its student, drop the records
    whose student is not in the directory, keep the rows the filters accept. *)
Definition getReports (filters : ReportFilters) (students : list Directory.Student)
    (store : list AttendanceRecord) : list ReportRow :=
  filter (λ r, keepRow filters r = true) (omap (reportRow students) store).

End Reports.

(** [Array.prototype.slice(start, end)]: a negative index counts from the
    end, and both are clamped to the array. *)
Definition slice {A} (l : list A) (start stop : Z) : list A :=
  let len := Z.of_nat (length l) in
  let k := if start <? 0 then Z.max (len + start) 0 else Z.min start len in
  let final := if stop <? 0 then Z.max (len + stop) 0 else Z.min stop len in
  take (Z.to_nat (final - k)) (drop (Z.to_nat k) l).

Definition recordsPerPage : Z := 10.

(** [paginatedRecords] of [ReportsPage]. *)
Definition paginatedRecords {A} (records : list A) (currentPage : Z) : list A :=
  let startIndex := (currentPage - 1) * recordsPerPage in
  slice records startIndex (startIndex + recordsPerPage).

(** [Math.ceil(records.length / recordsPerPage)], computed on integers (the
    quotient of two integers below 2^53 has the same ceiling in binary64). *)
Definition totalPages {A} (records : list A) : Z :=
  (Z.of_nat (length records) + recordsPerPage - 1) / recordsPerPage.

(** [summaryStats] of [ReportsPage]: one counter per status. *)
Record SummaryStats : Type := mkSummary {
  nPresent : nat;
  nLate : nat;
  nAbsent : nat;
  nEarlyLeave : nat
}.

(** The body of [records.forEach]: every status is a key of [stats]. *)
Definition countStatus (stats : SummaryStats) (r : ReportRow) : SummaryStats :=
  match status (row_record r) with
  | Present => mkSummary (S (nPresent stats)) (nLate stats) (nAbsent stats) (nEarlyLeave stats)
  | Late => mkSummary (nPresent stats) (S (nLate stats)) (nAbsent stats) (nEarlyLeave stats)
  | Absent => mkSummary (nPresent stats) (nLate stats) (S (nAbsent stats)) (nEarlyLeave stats)
  | EarlyLeave => mkSummary (nPresent stats) (nLate stats) (nAbsent stats) (S (nEarlyLeave stats))
  end.

Definition summaryStats (records : list ReportRow) : SummaryStats :=
  foldl countStatus (mkSummary 0 0 0 0) records.

(** The pages 1, 2, ..., n. *)
Definition pageNumbers (n : nat) : list Z := (λ k, Z.of_nat (S k)) <$> seq 0 n.

(** ** The dashboard *)

(** Truthiness of a value that is a string or [null]. *)
Definition truthy (v : option string) : bool :=
  match v with
  | Some s => negb (String.eqb s "")
  | None => false
  end.

(** [mockAttendance.filter(a => a.date === today && a.checkIn)]. *)
Definition presentTodayRecords (today : string) (store : list AttendanceRecord)
  : list AttendanceRecord :=
  filter (λ a, date a = today ∧ truthy (checkIn a) = true) store.

(** [new Set(presentTodayRecords.map(a => a.student_id))]. *)
Definition presentTodayIds (today : string) (store : list AttendanceRecord) : gset Z :=
  list_to_set (student_id <$> presentTodayRecords today store).

(** [mockStudents.filter(s => s.status === 'active')]. *)
Definition activeStudents (students : list Directory.Student) : list Directory.Student :=
  filter (λ s, Directory.status s = Directory.active) students.

(** The counters of [stats] in [getStats]; [presentPercent], a rounded
    binary64 quotient, is not modelled. *)
Definition totalStudents (students : list Directory.Student) : nat := length students.

Definition registeredFaces (students : list Directory.Student) : nat :=
  length (filter (λ s, Directory.faceRegistered s = true) students).

Definition presentToday (today : string) (store : list AttendanceRecord) : nat :=
  size (presentTodayIds today store).

Definition lateToday (today : string) (store : list AttendanceRecord) : nat :=
  length (filter (λ a, status a = Late) (presentTodayRecords today store)).

Definition absentToday (today : string) (students : list Directory.Student)
    (store : list AttendanceRecord) : nat :=
  length (filter (λ s, Directory.id s ∉ presentTodayIds today store)
            (activeStudents students)).

Definition sampleFilters : ReportFilters := mkFilters "2024-05-01" "2024-05-07" "" "" "".

(** ** Several pages over one store *)

(** [mockAttendance] is a variable of the module, written by the recorder
    and, from the settings page, by [handleClearAttendance], which replaces
    it by the empty array; the refs and timers
    of the recognition loop belong to one instance of [AttendancePage].
    Leaving a scan page runs the cleanup of its effect, which clears the
    detection interval and nothing else: a countdown, a recorder call or a
    release timer that is pending stays pending, and so does the rest of an
    interval callback that awaits its detection. *)
Record Mount : Type := mkMount {
  mount_mode : Mode;       (* the [mode] prop of the instance *)
  mounted : bool;          (* false once the cleanup has run *)
  session : Session        (* the instance; its store field is overwritten
                              with the module's store before every event *)
}.

Record World : Type := mkWorld {
  worldStore : list AttendanceRecord;   (* the module-level [mockAttendance] *)
  mounts : list Mount                   (* every instance created so far *)
}.

Inductive WorldEvent : Type :=
  | MountPage (mode : Mode)          (* a scan page is entered *)
  | UnmountPage (i : nat)            (* instance [i] is left: its cleanup runs *)
  | PageEvent (i : nat) (e : Event)  (* an event of instance [i] *)
  | ClearAttendance.                 (* the settings page empties the store *)

Definition withStore (store : list AttendanceRecord) (s : Session) : Session :=
  mkSession (isProcessing s) (recognitionCooldown s) (awaitingDetection s)
    (countdownTimers s) (apiCalls s) (settleTimers s) store (display s)
    (startedCommits s).

Definition isTimerFires (e : Event) : bool :=
  match e with
  | TimerFires _ => true
  | _ => false
  end.

(** One event of the world. The interval of an instance that was left no
    longer fires; its other events run as before on the refs of that
    instance and on the module's store, and React drops the state updates of
    an instance that is no longer mounted. *)
Definition worldStep (w : World) (ev : WorldEvent) : World :=
  match ev with
  | MountPage mode =>
      mkWorld (worldStore w)
        (mounts w ++ [mkMount mode true (initialSession (worldStore w))])
  | UnmountPage i =>
      match mounts w !! i with
      | Some m =>
          mkWorld (worldStore w)
            (<[i := mkMount (mount_mode m) false (session m)]> (mounts w))
      | None => w
      end
  | PageEvent i e =>
      match mounts w !! i with
      | Some m =>
          if isTimerFires e && negb (mounted m) then w
          else
            let s' := step (mount_mode m) (withStore (worldStore w) (session m)) e in
            let s'' := if mounted m then s' else setDisplay (display (session m)) s' in
            mkWorld (mockAttendance s')
              (<[i := mkMount (mount_mode m) (mounted m) s'']> (mounts w))
      | None => w
      end
  | ClearAttendance => mkWorld [] (mounts w)
  end.

Definition worldRun (w : World) (events : list WorldEvent) : World :=
  foldl worldStep w events.

Definition initialWorld (store : list AttendanceRecord) : World := mkWorld store [].

(** Commit attempts in flight over all instances. *)
Definition worldInFlight (w : World) : nat :=
  sum_list ((λ m, inFlight (session m)) <$> mounts w).

(** C5, the claim as stated: at any time at most one commit attempt is in
    flight. *)
Definition atMostOneCommitInFlight (w : World) : Prop :=
  (worldInFlight w ≤ 1)%nat.

(** A check-in page locks a student and is left; its countdown and its
    recorder call run; the page entered next locks another student while the
    release timer of the first is still pending. *)
Definition leaveAndReenter : list WorldEvent :=
  [ MountPage checkin;
    PageEvent 0 (TimerFires true);
    PageEvent 0 (DetectionResolves directory [mkDetection (Some 1) 1000]);
    UnmountPage 0;
    MountPage checkin;
    PageEvent 0 CountdownFires;
    PageEvent 0 (ApiCallFires "2024-05-01" "08:05" cfg0);
    PageEvent 1 (TimerFires true);
    PageEvent 1 (DetectionResolves directory [mkDetection (Some 4) 2500]) ].

(** The modes of the pages entered in a sequence of events. *)
Definition pagesEntered (events : list WorldEvent) : list Mode :=
  omap (λ ev, match ev with MountPage mode => Some mode | _ => None end) events.

(** The second page of [leaveAndReenter], after all its events. *)
Definition secondPage : Mount :=
  default (mkMount checkin true (initialSession []))
    (mounts (worldRun (initialWorld []) leaveAndReenter) !! 1%nat).

(** One visit of the check-out page that checks a student out. *)
Definition checkOutVisit : list WorldEvent :=
  [ MountPage checkout;
    PageEvent 0 (TimerFires true);
    PageEvent 0 (DetectionResolves directory [mkDetection (Some 1) 1000]);
    PageEvent 0 CountdownFires;
    PageEvent 0 (ApiCallFires "2024-05-01" "15:50" cfg0);
    PageEvent 0 SettleFires ].

(** ** The model on sample inputs *)

Example checkin_on_time :
  recordAttendance checkin somchai "2024-05-01" "08:05" cfg0 [] =
  (Recorded "08:05" Present, [mkRecord 1 "2024-05-01" (Some "08:05") None Present]).
Proof. reflexivity. Qed.

Example checkin_late :
  recordAttendance checkin somchai "2024-05-01" "08:45" cfg0 [] =
  (Recorded "08:45" Late, [mkRecord 1 "2024-05-01" (Some "08:45") None Late]).
Proof. reflexivity. Qed.

Example checkin_twice :
  commit (commits [] [mkRequest checkin somchai "2024-05-01" "08:05" cfg0])
         (mkRequest checkin somchai "2024-05-01" "08:20" cfg0) =
  (Rejected (alreadyCheckedIn ++ "08:05"),
   [mkRecord 1 "2024-05-01" (Some "08:05") None Present]).
Proof. reflexivity. Qed.

Example checkout_late_stays_late :
  recordAttendance checkout somchai "2024-05-01" "15:50" cfg0
    [mkRecord 1 "2024-05-01" (Some "08:45") None Late] =
  (Recorded "15:50" EarlyLeave,
   [mkRecord 1 "2024-05-01" (Some "08:45") (Some "15:50") Late]).
Proof. reflexivity. Qed.

Example scenario_commits_once :
  let s := run checkin (initialSession []) scenario in
  startedCommits s = [(1, 1000)] ∧
  mockAttendance s = [mkRecord 1 "2024-05-01" (Some "08:05") None Present] ∧
  isProcessing s = false ∧ inFlight s = 0%nat ∧
  recognitionCooldown s !! "1" = Some 1000.
Proof. vm_compute. done. Qed.

Example face_of_good_size :
  onFaces [mkFace (mkBox 200 200) [0.5%float]] 640 480 =
  mkGate (Some [0.5%float]) true GoodFace.
Proof. reflexivity. Qed.

Example face_too_close :
  onFaces [mkFace (mkBox 400 400) [0.5%float]] 640 480 = mkGate None false FaceTooLarge.
Proof. reflexivity. Qed.

Example face_too_far :
  onFaces [mkFace (mkBox 100 100) [0.5%float]] 640 480 = mkGate None false FaceTooSmall.
Proof. reflexivity. Qed.

(** ** Lemmas on string comparison *)

Lemma ascii_compare_Lt c d :
  Ascii.compare c d = Lt ↔ (nat_of_ascii c < nat_of_ascii d)%nat.
Proof.
  unfold Ascii.compare, nat_of_ascii.
  rewrite N.compare_lt_iff. lia.
Qed.

Lemma ascii_compare_Eq c d : Ascii.compare c d = Eq ↔ c = d.
Proof.
  unfold Ascii.compare. rewrite N.compare_eq_iff. split.
  - intros H. rewrite <- (ascii_N_embedding c), <- (ascii_N_embedding d).
    by rewrite H.
  - by intros ->.
Qed.

Lemma string_compare_Lt a b : String.compare a b = Lt ↔ lex_lt a b.
Proof.
  revert b. induction a as [|c a IH]; intros [|d b]; simpl.
  - split; [done | inversion 1].
  - split; [constructor | done].
  - split; [done | inversion 1].
  - destruct (Ascii.compare c d) eqn:Hcd.
    + apply ascii_compare_Eq in Hcd as ->. rewrite IH. split.
      * by constructor.
      * inversion 1; subst; [lia | done].
    + split; [intros _; by apply lex_lt_head, ascii_compare_Lt | done].
    + split; [done |]. inversion 1; subst.
      * match goal with H : (_ < _)%nat |- _ => apply ascii_compare_Lt in H end.
        congruence.
      * assert (Ascii.compare d d = Eq) by by apply ascii_compare_Eq.
        congruence.
Qed.

Lemma js_gt_lex a b : js_gt a b = true ↔ lex_lt b a.
Proof.
  unfold js_gt, String.ltb. rewrite <- string_compare_Lt.
  destruct (String.compare b a); split; congruence.
Qed.

Lemma js_lt_lex a b : js_lt a b = true ↔ lex_lt a b.
Proof.
  unfold js_lt, String.ltb. rewrite <- string_compare_Lt.
  destruct (String.compare a b); split; congruence.
Qed.

(** ** Lemmas on the store *)

Lemma sameEntry_refl a : sameEntry a a.
Proof. by repeat split. Qed.

Lemma applyCheckOut_sameEntry timeNow st r : sameEntry r (applyCheckOut timeNow st r).
Proof. unfold applyCheckOut, sameEntry. by case_decide. Qed.

Lemma sameEntry_same_day sid day a b :
  sameEntry a b → same_day sid day a ↔ same_day sid day b.
Proof. unfold sameEntry, same_day. intros (-> & -> & _). done. Qed.

Lemma sameEntry_checkedIn sid day a b :
  sameEntry a b → checkedIn sid day a = checkedIn sid day b.
Proof.
  intros Hab. unfold checkedIn.
  rewrite (bool_decide_ext _ _ (sameEntry_same_day sid day a b Hab)).
  destruct Hab as (_ & _ & ->). done.
Qed.

Lemma insert_sameEntry (store : list AttendanceRecord) i r r' :
  store !! i = Some r → sameEntry r r' →
  Forall2 sameEntry store (<[i := r']> store).
Proof.
  intros Hi Hr. rewrite <- (list_insert_id store i r) at 1 by done.
  apply Forall2_insert; [|done].
  apply Forall_Forall2_diag, Forall_forall. intros. apply sameEntry_refl.
Qed.

Lemma countCheckIns_sameEntry sid day l k :
  Forall2 sameEntry l k → countCheckIns sid day l = countCheckIns sid day k.
Proof.
  unfold countCheckIns. induction 1 as [|a b l k Hab _ IH]; [done|].
  simpl. rewrite (sameEntry_checkedIn sid day a b Hab).
  destruct (checkedIn sid day b); simpl; by rewrite IH.
Qed.

Lemma countRecords_sameEntry sid day l k :
  Forall2 sameEntry l k → countRecords sid day l = countRecords sid day k.
Proof.
  unfold countRecords. induction 1 as [|a b l k Hab _ IH]; [done|].
  simpl. rewrite (bool_decide_ext _ _ (sameEntry_same_day sid day a b Hab)).
  destruct (bool_decide (same_day sid day b)); simpl; by rewrite IH.
Qed.

Lemma findIndex_sameEntry sid day l k i a :
  Forall2 sameEntry l k → findIndex sid day l = Some (i, a) →
  ∃ b, findIndex sid day k = Some (i, b) ∧ sameEntry a b.
Proof.
  unfold findIndex. intros HF. revert i.
  induction HF as [|x y l k Hxy _ IH]; intros i; simpl; [done|].
  destruct (decide (same_day sid day x)) as [Hx|Hx].
  - intros [= <- <-]. rewrite decide_True by by apply (sameEntry_same_day _ _ x y).
    eauto.
  - rewrite decide_False by by rewrite <- (sameEntry_same_day _ _ x y).
    destruct (list_find _ l) as [[j c]|] eqn:Hl; simpl; [|done].
    intros [= <- <-]. destruct (IH j eq_refl) as (b & -> & ?). simpl. eauto.
Qed.

Lemma findIndex_None_countRecords sid day store :
  findIndex sid day store = None ↔ countRecords sid day store = 0%nat.
Proof.
  unfold findIndex, countRecords. rewrite list_find_None.
  induction store as [|a store IH]; simpl.
  - split; [done | constructor].
  - rewrite Forall_cons. case_bool_decide; simpl.
    + split; [intros [? _]; done | done].
    + rewrite IH. split; [by intros [_ ?] | by split].
Qed.

Lemma countCheckIns_le_countRecords sid day store :
  (countCheckIns sid day store ≤ countRecords sid day store)%nat.
Proof.
  unfold countCheckIns, countRecords, checkedIn.
  induction store as [|a store IH]; simpl; [done|].
  case_bool_decide; simpl; [|done].
  case_bool_decide; simpl; lia.
Qed.

Lemma findIndex_lookup sid day store i r :
  findIndex sid day store = Some (i, r) → store !! i = Some r ∧ same_day sid day r.
Proof. unfold findIndex. rewrite list_find_Some. by intros (? & ? & _). Qed.

(** Every error message of the recorder is a non-empty string, so the
    truthiness test [result && result.error] of [apiCall] sees every error. *)
Lemma recordAttendance_error_nonempty mode stu today timeNow cfg store e store' :
  recordAttendance mode stu today timeNow cfg store = (Rejected e, store') →
  e ≠ "".
Proof.
  unfold recordAttendance.
  destruct mode, (findIndex _ _ _) as [[i r]|]; intros [= <- <-]; done.
Qed.

(** A commit keeps, index by index, the student, day and check-in time of
    every record it does not create. *)
Lemma commit_sameEntry store q :
  snd (commit store q) = store ∨
  (∃ r, snd (commit store q) = r :: store ∧ req_mode q = checkin ∧
        findIndex (id (req_student q)) (req_today q) store = None ∧
        r = mkRecord (id (req_student q)) (req_today q) (Some (req_timeNow q)) None
              (computeStatus checkin (req_timeNow q) (req_settings q))) ∨
  (req_mode q = checkout ∧ Forall2 sameEntry store (snd (commit store q))).
Proof.
  unfold commit, recordAttendance.
  destruct (req_mode q), (findIndex _ _ _) as [[i r]|] eqn:Hfind; simpl; eauto.
  - right. left. eauto.
  - right. right. split; [done|].
    apply findIndex_lookup in Hfind as [Hi _].
    eapply insert_sameEntry; [done | apply applyCheckOut_sameEntry].
Qed.

Lemma countCheckIns_cons sid day a store :
  countCheckIns sid day (a :: store) =
  ((if checkedIn sid day a then 1 else 0) + countCheckIns sid day store)%nat.
Proof. unfold countCheckIns. simpl. by destruct (checkedIn sid day a). Qed.

Lemma commit_countCheckIns store q :
  (∀ sid day, (countCheckIns sid day store ≤ 1)%nat) →
  ∀ sid day, (countCheckIns sid day (snd (commit store q)) ≤ 1)%nat.
Proof.
  intros Hone sid day.
  destruct (commit_sameEntry store q) as [->|[(r & -> & _ & Hnone & ->)|[_ HF]]].
  - apply Hone.
  - rewrite countCheckIns_cons.
    destruct (checkedIn sid day _) eqn:Hin; [|apply Hone].
    apply andb_true_iff in Hin as [Hsame%bool_decide_eq_true _].
    destruct Hsame as [<- <-]. simpl.
    apply findIndex_None_countRecords in Hnone.
    pose proof (countCheckIns_le_countRecords (id (req_student q)) (req_today q) store).
    lia.
  - rewrite <- (countCheckIns_sameEntry sid day _ _ HF). apply Hone.
Qed.

Lemma commits_countCheckIns qs : ∀ store,
  (∀ sid day, (countCheckIns sid day store ≤ 1)%nat) →
  ∀ sid day, (countCheckIns sid day (commits store qs) ≤ 1)%nat.
Proof.
  induction qs as [|q qs IH]; intros store Hone; [done|].
  unfold commits. simpl. apply IH. by apply commit_countCheckIns.
Qed.

(** The invariant of the data model, one record per student and day, is kept
    by every commit. *)
Lemma commit_oneRecordPerDay store q :
  oneRecordPerDay store → oneRecordPerDay (snd (commit store q)).
Proof.
  intros Hone sid day.
  destruct (commit_sameEntry store q) as [->|[(r & -> & _ & Hnone & ->)|[_ HF]]].
  - apply Hone.
  - unfold countRecords. simpl.
    destruct (bool_decide (same_day sid day _)) eqn:Hsame; [|apply Hone].
    apply bool_decide_eq_true in Hsame as [<- <-]. simpl in *.
    apply findIndex_None_countRecords in Hnone. unfold countRecords in Hnone.
    rewrite Hnone. done.
  - rewrite <- (countRecords_sameEntry sid day _ _ HF). apply Hone.
Qed.

Lemma commits_oneRecordPerDay qs : ∀ store,
  oneRecordPerDay store → oneRecordPerDay (commits store qs).
Proof.
  induction qs as [|q qs IH]; intros store Hone; [done|].
  unfold commits. simpl. by apply IH, commit_oneRecordPerDay.
Qed.

(** Once a student has a record for a day, every later commit finds a record
    for that student and day with the same check-in time. *)
Lemma commit_findIndex store q sid day i r :
  findIndex sid day store = Some (i, r) →
  ∃ j r', findIndex sid day (snd (commit store q)) = Some (j, r') ∧
          checkIn r' = checkIn r.
Proof.
  intros Hfind.
  destruct (commit_sameEntry store q) as [->|[(r0 & -> & _ & Hnone & ->)|[_ HF]]].
  - eauto.
  - unfold findIndex in *. simpl. rewrite decide_False.
    + rewrite Hfind. simpl. eauto.
    + intros [Hs Hd]. simpl in *. subst. congruence.
  - destruct (findIndex_sameEntry _ _ _ _ _ _ HF Hfind) as (b & Hb & _ & _ & Hc).
    eauto.
Qed.

Lemma commits_findIndex qs : ∀ store sid day i r,
  findIndex sid day store = Some (i, r) →
  ∃ j r', findIndex sid day (commits store qs) = Some (j, r') ∧
          checkIn r' = checkIn r.
Proof.
  induction qs as [|q qs IH]; intros store sid day i r Hfind; [by eauto|].
  destruct (commit_findIndex store q sid day i r Hfind) as (j & r' & Hj & Hc).
  destruct (IH _ _ _ _ _ Hj) as (k & r'' & Hk & Hc').
  exists k, r''. split; [done | congruence].
Qed.

(** ** The claims on the attendance recorder *)

(** C1. Starting from a store with at most one checked-in record per student
    and day, after any sequence of commits there is still at most one record
    with a check-in time for every student and day; a check-in for a student
    with no record of the day creates the record at the head of the store; and
    after that check-in, whatever commits come in between, every later
    check-in of the same student on the same day returns the
    already-checked-in error ending in the time of the first check-in and
    leaves the store as it was. *)
Theorem C1_at_most_one_check_in (store : list AttendanceRecord) (qs : list Request) :
  (∀ sid day, (countCheckIns sid day store ≤ 1)%nat) →
  (∀ sid day, (countCheckIns sid day (commits store qs) ≤ 1)%nat) ∧
  (∀ stu today timeNow cfg,
     (∀ a, a ∈ commits store qs → ¬ same_day (id stu) today a) →
     ∃ st, recordAttendance checkin stu today timeNow cfg (commits store qs) =
           (Recorded timeNow st,
            mkRecord (id stu) today (Some timeNow) None st :: commits store qs)) ∧
  (∀ stu today timeNow cfg st later stu' timeNow' cfg',
     recordAttendance checkin stu today timeNow cfg (commits store qs) =
       (Recorded timeNow st,
        mkRecord (id stu) today (Some timeNow) None st :: commits store qs) →
     id stu' = id stu →
     let before :=
       commits (mkRecord (id stu) today (Some timeNow) None st :: commits store qs)
               later in
     recordAttendance checkin stu' today timeNow' cfg' before =
       (Rejected (alreadyCheckedIn ++ timeNow), before)).
Proof.
  intros Hone. split; [by apply commits_countCheckIns|]. split.
  - intros stu today timeNow cfg Hfresh.
    exists (computeStatus checkin timeNow cfg). unfold recordAttendance.
    replace (findIndex (id stu) today (commits store qs)) with
      (@None (nat * AttendanceRecord)); [done|].
    symmetry. apply list_find_None, Forall_forall. done.
  - intros stu today timeNow cfg st later stu' timeNow' cfg' _ Hid before.
    assert (findIndex (id stu) today
              (mkRecord (id stu) today (Some timeNow) None st :: commits store qs)
            = Some (0%nat, mkRecord (id stu) today (Some timeNow) None st)) as H0.
    { unfold findIndex. simpl. by rewrite decide_True. }
    destruct (commits_findIndex later _ _ _ _ _ H0) as (j & r' & Hj & Hc).
    unfold recordAttendance. rewrite Hid. fold before in Hj. rewrite Hj.
    by rewrite Hc.
Qed.

Lemma C1_at_most_one_check_in_witness :
  (countCheckIns 1 "2024-05-01"
     (commits store1 [mkRequest checkin somchai "2024-05-01" "08:05" cfg0;
                      mkRequest checkin somchai "2024-05-01" "08:20" cfg0])
   ≤ 1)%nat.
Proof.
  refine (proj1 (C1_at_most_one_check_in store1 _ _) 1 "2024-05-01").
  intros sid day. unfold countCheckIns, store1. simpl.
  destruct (checkedIn sid day _); simpl; lia.
Defined.

(** C2. A check-out for a student who has no record for today returns the
    no-check-in-found error, and the store after the call is the store before
    it. *)
Theorem C2_check_out_requires_check_in
    (stu : Student) (today timeNow : string) (cfg : Settings)
    (store : list AttendanceRecord) :
  (∀ a, a ∈ store → ¬ same_day (id stu) today a) →
  recordAttendance checkout stu today timeNow cfg store =
    (Rejected noCheckInFound, store).
Proof.
  intros Hfresh. unfold recordAttendance.
  replace (findIndex (id stu) today store) with (@None (nat * AttendanceRecord));
    [done|].
  symmetry. apply list_find_None, Forall_forall. done.
Qed.

Lemma C2_check_out_requires_check_in_witness :
  recordAttendance checkout somchai "2024-05-01" "16:05" cfg0 store1 =
    (Rejected noCheckInFound, store1).
Proof.
  apply C2_check_out_requires_check_in.
  intros a Ha [Hs _]. unfold store1 in Ha.
  apply list_elem_of_singleton in Ha. subst a. simpl in Hs. discriminate Hs.
Defined.

(** C3. A check-out that finds the student's record of the day writes the
    current time into its [checkOut] and touches no other record. If the
    record's status was [Late] it is still [Late] afterwards, also when the
    current time is before the configured check-out time; otherwise the
    status becomes [EarlyLeave] when the current time is before the
    configured check-out time and [Present] when it is not. *)
Theorem C3_late_survives_check_out
    (stu : Student) (today timeNow : string) (cfg : Settings)
    (store : list AttendanceRecord) (i : nat) (r : AttendanceRecord) :
  findIndex (id stu) today store = Some (i, r) →
  ∃ r', snd (recordAttendance checkout stu today timeNow cfg store) = <[i := r']> store ∧
        snd (recordAttendance checkout stu today timeNow cfg store) !! i = Some r' ∧
        checkOut r' = Some timeNow ∧
        sameEntry r r' ∧
        (status r = Late → status r' = Late ∧ status r' ≠ EarlyLeave) ∧
        (status r ≠ Late →
           status r' = if js_lt timeNow (checkOutTime cfg) then EarlyLeave else Present).
Proof.
  intros Hfind. unfold recordAttendance. rewrite Hfind. simpl.
  apply findIndex_lookup in Hfind as [Hi _].
  exists (applyCheckOut timeNow (computeStatus checkout timeNow cfg) r).
  split; [done|]. split.
  { apply list_lookup_insert_eq. by eapply lookup_lt_Some. }
  split; [unfold applyCheckOut; by case_decide|].
  split; [apply applyCheckOut_sameEntry|].
  unfold applyCheckOut. simpl. split; intros Hst.
  - rewrite decide_False by (intros Hne; by apply Hne). simpl.
    rewrite Hst. done.
  - by rewrite decide_True.
Qed.

Lemma C3_late_survives_check_out_witness :
  ∃ r', snd (recordAttendance checkout somchai "2024-05-01" "15:50" cfg0 storeLate)
          = <[1%nat := r']> storeLate ∧
        snd (recordAttendance checkout somchai "2024-05-01" "15:50" cfg0 storeLate)
          !! 1%nat = Some r' ∧
        checkOut r' = Some "15:50" ∧
        sameEntry (mkRecord 1 "2024-05-01" (Some "08:45") None Late) r' ∧
        (Late = Late → status r' = Late ∧ status r' ≠ EarlyLeave) ∧
        (Late ≠ Late →
           status r' = if js_lt "15:50" (checkOutTime cfg0) then EarlyLeave else Present).
Proof.
  apply (C3_late_survives_check_out somchai "2024-05-01" "15:50" cfg0 storeLate 1
           (mkRecord 1 "2024-05-01" (Some "08:45") None Late)).
  reflexivity.
Defined.

(** C7. A check-in that succeeds returns the current time-of-day string and
    puts one new record at the head of the store: its [checkIn] is that
    string, its [checkOut] is absent, and its status is [Late] exactly when
    the configured late time is lexicographically smaller than the current
    time string, and [Present] otherwise. *)
Theorem C7_check_in_record
    (stu : Student) (today timeNow : string) (cfg : Settings)
    (store store' : list AttendanceRecord) (t : string) (st : Status) :
  recordAttendance checkin stu today timeNow cfg store = (Recorded t st, store') →
  t = timeNow ∧
  store' = mkRecord (id stu) today (Some timeNow) None st :: store ∧
  (st = Late ↔ lex_lt (lateTime cfg) timeNow) ∧
  (st = Present ↔ ¬ lex_lt (lateTime cfg) timeNow).
Proof.
  unfold recordAttendance.
  destruct (findIndex _ _ _) as [[i r]|]; [done|].
  simpl. intros [= <- <- <-]. split; [done|]. split; [done|].
  rewrite <- js_gt_lex. destruct (js_gt timeNow (lateTime cfg)); split; split;
    (done || congruence).
Qed.

Lemma C7_check_in_record_witness :
  "08:45" = "08:45" ∧
  [mkRecord 1 "2024-05-01" (Some "08:45") None Late] =
    [mkRecord (id somchai) "2024-05-01" (Some "08:45") None Late] ∧
  (Late = Late ↔ lex_lt (lateTime cfg0) "08:45") ∧
  (Late = Present ↔ ¬ lex_lt (lateTime cfg0) "08:45").
Proof.
  apply (C7_check_in_record somchai "2024-05-01" "08:45" cfg0 []).
  reflexivity.
Defined.

(** C8 fails on the code: a student who checked out at 15:50 (early leave) and
    is recognised again at 16:10 has the check-out time overwritten and the
    status recomputed. *)
Lemma C8_repeated_check_out_applied :
  recordAttendance checkout somchai "2024-05-01" "16:10" cfg0 storeOut =
    (Recorded "16:10" Present,
     [mkRecord 1 "2024-05-01" (Some "08:05") (Some "16:10") Present]) ∧
  ¬ repeatedCheckOutRejected somchai "2024-05-01" "16:10" cfg0 storeOut.
Proof.
  split; [reflexivity|].
  intros Hrej.
  destruct (Hrej 0%nat (mkRecord 1 "2024-05-01" (Some "08:05") (Some "15:50") EarlyLeave)
              "15:50" eq_refl eq_refl) as [e He].
  discriminate He.
Qed.

(** C8 as amended. A repeated check-in is rejected and leaves the store
    unchanged. A repeated check-out is not rejected: whether or not the
    record already has a check-out time, the call succeeds and returns the
    current time with Early Leave when the current time is before the
    configured check-out time and Present otherwise; it overwrites [checkOut]
    with the current time and, unless the status is [Late], stores that same
    status. *)
Theorem C8_duplicates_by_direction
    (stu : Student) (today timeNow : string) (cfg : Settings)
    (store : list AttendanceRecord) (i : nat) (r : AttendanceRecord) :
  findIndex (id stu) today store = Some (i, r) →
  recordAttendance checkin stu today timeNow cfg store =
    (Rejected (alreadyCheckedIn ++ template (checkIn r)), store) ∧
  recordAttendance checkout stu today timeNow cfg store =
    (Recorded timeNow
       (if js_lt timeNow (checkOutTime cfg) then EarlyLeave else Present),
     <[i := mkRecord (student_id r) (date r) (checkIn r) (Some timeNow)
              (if decide (status r = Late) then Late
               else if js_lt timeNow (checkOutTime cfg) then EarlyLeave
                    else Present)]> store) ∧
  (lex_lt timeNow (checkOutTime cfg) ↔ js_lt timeNow (checkOutTime cfg) = true).
Proof.
  intros Hfind. unfold recordAttendance. rewrite Hfind. split; [done|].
  split; [|symmetry; apply js_lt_lex].
  unfold applyCheckOut, computeStatus. simpl. do 2 f_equal.
  destruct (decide (status r = Late)) as [Hl|Hl].
  - rewrite decide_False by (intros Hne; by apply Hne). by rewrite Hl.
  - by rewrite decide_True.
Qed.

Lemma C8_duplicates_by_direction_witness :
  recordAttendance checkin somchai "2024-05-01" "16:10" cfg0 storeOut =
    (Rejected (alreadyCheckedIn ++ "08:05"), storeOut) ∧
  recordAttendance checkout somchai "2024-05-01" "16:10" cfg0 storeOut =
    (Recorded "16:10" Present,
     [mkRecord 1 "2024-05-01" (Some "08:05") (Some "16:10") Present]).
Proof.
  refine (let H := C8_duplicates_by_direction somchai "2024-05-01" "16:10" cfg0 storeOut 0
                     (mkRecord 1 "2024-05-01" (Some "08:05") (Some "15:50") EarlyLeave)
                     eq_refl in
          conj (proj1 H) (proj1 (proj2 H))).
Defined.

(** ** Lemmas on the loop body *)

Lemma find_by_id studentId mockStudents student :
  List.find (λ st, bool_decide (id st = studentId)) mockStudents = Some student →
  id student = studentId.
Proof. intros [_ H]%find_some. by apply bool_decide_eq_true in H. Qed.

Lemma onDetection_frame mockStudents s d :
  awaitingDetection (onDetection mockStudents s d) = awaitingDetection s ∧
  apiCalls (onDetection mockStudents s d) = apiCalls s ∧
  settleTimers (onDetection mockStudents s d) = settleTimers s ∧
  mockAttendance (onDetection mockStudents s d) = mockAttendance s.
Proof.
  unfold onDetection, startFastAttendance.
  destruct (bestMatch d) as [studentId|].
  - destruct (List.find _ _) as [student|]; [|done].
    destruct (cooldownElapsed _ _ _); [|done]. simpl.
    by destruct (isProcessing s).
  - by destruct (isProcessing s).
Qed.

Lemma onDetection_cases mockStudents s d :
  Recognition s (onDetection mockStudents s d) d.
Proof.
  unfold onDetection.
  destruct (bestMatch d) as [studentId|] eqn:Hbest.
  - destruct (List.find _ _) as [student|] eqn:Hfind; [|by constructor].
    apply find_by_id in Hfind as <-.
    destruct (cooldownElapsed _ _ _) eqn:Hcool; [|by constructor].
    unfold startFastAttendance. simpl.
    destruct (isProcessing s) eqn:Hproc.
    + by apply (AcceptedAndDropped _ _ _ student).
    + by apply (AcceptedAndStarted _ _ _ student).
  - destruct (isProcessing s); by constructor.
Qed.

Lemma guardInv_ext s s' :
  isProcessing s' = isProcessing s → countdownTimers s' = countdownTimers s →
  apiCalls s' = apiCalls s → settleTimers s' = settleTimers s →
  guardInv s → guardInv s'.
Proof. unfold guardInv, inFlight. by intros -> -> -> ->. Qed.

Lemma onDetection_guardInv mockStudents s d :
  guardInv s → guardInv (onDetection mockStudents s d).
Proof.
  unfold guardInv, inFlight.
  destruct (onDetection_frame mockStudents s d) as (_ & -> & -> & _).
  destruct (onDetection_cases mockStudents s d)
    as [_ -> -> _|student _ _ _ Hp -> -> _|student _ _ _ Hp -> -> _]; [done|..].
  - by rewrite Hp.
  - rewrite Hp, length_app. simpl. lia.
Qed.

Lemma foldl_onDetection_guardInv mockStudents ds : ∀ s,
  guardInv s → guardInv (foldl (onDetection mockStudents) s ds).
Proof.
  induction ds as [|d ds IH]; intros s Hs; [done|].
  simpl. by apply IH, onDetection_guardInv.
Qed.

Lemma step_guardInv mode s e : guardInv s → guardInv (step mode s e).
Proof.
  intros Hs. destruct e as [cameraReady|mockStudents ds| |today timeNow cfg|]; simpl.
  - unfold timerFires. by destruct (negb cameraReady || isProcessing s).
  - unfold detectionResolves. destruct (awaitingDetection s); [done|].
    destruct ds as [|d ds].
    + simpl. destruct (isProcessing s) eqn:Hp; apply (guardInv_ext s); done.
    + apply foldl_onDetection_guardInv. by apply (guardInv_ext s).
  - unfold countdownFires. destruct (countdownTimers s) as [|student rest] eqn:Hc; [done|].
    unfold guardInv, inFlight in *. simpl. rewrite Hc in Hs. rewrite length_app.
    simpl in *. lia.
  - unfold apiCallFires. destruct (apiCalls s) as [|student rest] eqn:Hc; [done|].
    unfold guardInv, inFlight in *. simpl. rewrite Hc in Hs. simpl in *. lia.
  - unfold settleFires. destruct (settleTimers s) as [|n] eqn:Hc; [done|].
    unfold guardInv, inFlight in *. simpl. rewrite Hc in Hs.
    destruct (isProcessing s); lia.
Qed.

Lemma run_guardInv mode events : ∀ s, guardInv s → guardInv (run mode s events).
Proof.
  induction events as [|e events IH]; intros s Hs; [done|].
  unfold run. simpl. by apply IH, step_guardInv.
Qed.

(** While the guard is set, the loop body starts nothing. *)
Lemma onDetection_while_processing mockStudents s d :
  isProcessing s = true →
  isProcessing (onDetection mockStudents s d) = true ∧
  countdownTimers (onDetection mockStudents s d) = countdownTimers s ∧
  startedCommits (onDetection mockStudents s d) = startedCommits s.
Proof.
  intros Hp.
  destruct (onDetection_cases mockStudents s d)
    as [_ -> -> ->|student _ _ _ _ -> -> ->|student _ _ _ Hp' _ _ _]; [done..|].
  congruence.
Qed.

Lemma foldl_onDetection_while_processing mockStudents ds : ∀ s,
  isProcessing s = true →
  let s' := foldl (onDetection mockStudents) s ds in
  isProcessing s' = true ∧
  countdownTimers s' = countdownTimers s ∧
  apiCalls s' = apiCalls s ∧
  settleTimers s' = settleTimers s ∧
  mockAttendance s' = mockAttendance s ∧
  startedCommits s' = startedCommits s.
Proof.
  induction ds as [|d ds IH]; intros s Hp; [done|].
  simpl. destruct (onDetection_while_processing mockStudents s d Hp) as (Hp' & Hc & Hl).
  destruct (onDetection_frame mockStudents s d) as (_ & Ha & Hs & Hm).
  destruct (IH _ Hp') as (? & ? & ? & ? & ? & ?).
  repeat split; congruence.
Qed.

(** ** The cooldown invariant *)

Lemma cooldownInv_ext s s' :
  recognitionCooldown s' = recognitionCooldown s →
  startedCommits s' = startedCommits s →
  cooldownInv s → cooldownInv s'.
Proof. unfold cooldownInv. by intros -> ->. Qed.

Lemma cooldownElapsed_true (cooldown : gmap string Z) key now :
  (∀ (k : string) (t : Z), cooldown !! k = Some t → t ≠ 0) →
  cooldownElapsed cooldown key now = true →
  cooldown !! key = None ∨ ∃ t, cooldown !! key = Some t ∧ 8000 < now - t.
Proof.
  intros Hnz. unfold cooldownElapsed.
  destruct (cooldown !! key) as [t|] eqn:Hk; [|by left].
  intros [H0|Hlt]%orb_true_iff.
  - apply Z.eqb_eq in H0. by apply Hnz in Hk.
  - apply Z.ltb_lt in Hlt. right. eauto.
Qed.

Lemma onDetection_cooldownInv mockStudents s d :
  clock d ≠ 0 → cooldownInv s → cooldownInv (onDetection mockStudents s d).
Proof.
  intros Hclock (Hnz & Hlog & Hsp).
  assert (∀ student,
    cooldownElapsed (recognitionCooldown s) (pretty (id student)) (clock d) = true →
    ∀ sid t, (sid, t) ∈ startedCommits s →
      ∃ t', <[pretty (id student) := clock d]> (recognitionCooldown s) !! pretty sid
              = Some t' ∧ t ≤ t' ∧ (sid = id student → 8000 < clock d - t)) as Hold.
  { intros student Hcool sid t Hin. destruct (Hlog sid t Hin) as (t' & Ht' & Hle).
    destruct (decide (sid = id student)) as [->|Hne].
    - exists (clock d). rewrite lookup_insert_eq.
      apply (cooldownElapsed_true _ _ _ Hnz) in Hcool as [Hnone|(t0 & Ht0 & Hlt)];
        [congruence|].
      assert (t0 = t') as -> by congruence. split; [done|]. split; [lia|]. intros _. lia.
    - exists t'. rewrite lookup_insert_ne; [by (split; [|split])|].
      intros Heq. by apply (inj pretty) in Heq. }
  assert (∀ student (k : string) (t : Z),
    <[pretty (id student) := clock d]> (recognitionCooldown s) !! k = Some t → t ≠ 0)
    as Hnz'.
  { intros student k t. rewrite lookup_insert. case_decide; [congruence|]. apply Hnz. }
  destruct (onDetection_cases mockStudents s d)
    as [Hc _ _ Hl|student _ Hcool Hc _ _ _ Hl|student _ Hcool Hc _ _ _ Hl].
  - by apply (cooldownInv_ext s).
  - unfold cooldownInv. rewrite Hc, Hl. split; [by apply Hnz'|]. split; [|done].
    intros sid t Hin. destruct (Hold student Hcool sid t Hin) as (t' & ? & ? & _). eauto.
  - unfold cooldownInv. rewrite Hc, Hl. split; [by apply Hnz'|]. split.
    + intros sid t [[= -> ->]|Hin]%elem_of_cons.
      * exists (clock d). by rewrite lookup_insert_eq.
      * destruct (Hold student Hcool sid t Hin) as (t' & ? & ? & _). eauto.
    + intros [|i] [|j] sid t2 t1 Hij; try lia; simpl.
      * intros [= <- <-] Hj.
        destruct (Hold student Hcool (id student) t1) as (_ & _ & _ & Hlt); [|by apply Hlt].
        by eapply list_elem_of_lookup_2.
      * apply Hsp. lia.
Qed.

Lemma foldl_onDetection_cooldownInv mockStudents ds : ∀ s,
  Forall (λ d, clock d ≠ 0) ds → cooldownInv s →
  cooldownInv (foldl (onDetection mockStudents) s ds).
Proof.
  induction ds as [|d ds IH]; intros s Hds Hs; [done|].
  apply Forall_cons in Hds as [Hd Hds]. simpl.
  by apply IH, onDetection_cooldownInv.
Qed.

Lemma step_cooldownInv mode s e :
  clocksValid e → cooldownInv s → cooldownInv (step mode s e).
Proof.
  intros He Hs. destruct e as [cameraReady|mockStudents ds| |today timeNow cfg|]; simpl.
  - unfold timerFires. by destruct (negb cameraReady || isProcessing s).
  - unfold detectionResolves. destruct (awaitingDetection s); [done|].
    destruct ds as [|d ds].
    + simpl. by destruct (isProcessing s).
    + apply foldl_onDetection_cooldownInv; [done|]. by apply (cooldownInv_ext s).
  - unfold countdownFires. by destruct (countdownTimers s).
  - unfold apiCallFires. by destruct (apiCalls s).
  - unfold settleFires. by destruct (settleTimers s).
Qed.

Lemma run_cooldownInv mode events : ∀ s,
  Forall clocksValid events → cooldownInv s → cooldownInv (run mode s events).
Proof.
  induction events as [|e events IH]; intros s Hes Hs; [done|].
  apply Forall_cons in Hes as [He Hes]. unfold run. simpl.
  by apply IH, step_cooldownInv.
Qed.

Lemma initialSession_cooldownInv store : cooldownInv (initialSession store).
Proof.
  split; [|split].
  - intros k t. simpl. by rewrite lookup_empty.
  - intros sid t Hin. simpl in Hin. by apply elem_of_nil in Hin.
  - intros i j sid t2 t1 _ Hi. simpl in Hi. by rewrite lookup_nil in Hi.
Qed.

(** ** The claims on the recognition loop *)

(** C4. In every run of a session whose clock readings are not 0: any two
    commit attempts started for the same student are more than 8000 ms apart;
    a recognition of a student at most 8000 ms after the timestamp stored for
    that student leaves the session exactly as it was, so it starts no commit
    attempt; and a recognition that does arm a commit timer is the first
    recognition of that student or comes strictly more than 8000 ms after the
    stored timestamp. *)
Theorem C4_cooldown (mode : Mode) (store : list AttendanceRecord) (events : list Event) :
  Forall clocksValid events →
  let s := run mode (initialSession store) events in
  spaced (startedCommits s) ∧
  (∀ mockStudents d sid t,
     bestMatch d = Some sid →
     recognitionCooldown s !! pretty sid = Some t →
     clock d - t ≤ 8000 →
     onDetection mockStudents s d = s) ∧
  (∀ mockStudents d,
     countdownTimers (onDetection mockStudents s d) ≠ countdownTimers s →
     ∃ student, bestMatch d = Some (id student) ∧
       (recognitionCooldown s !! pretty (id student) = None ∨
        ∃ t, recognitionCooldown s !! pretty (id student) = Some t ∧
             8000 < clock d - t)).
Proof.
  intros Hclocks s.
  pose proof (run_cooldownInv mode events _ Hclocks (initialSession_cooldownInv store))
    as (Hnz & Hlog & Hsp).
  fold s in Hnz, Hlog, Hsp. split; [done|]. split.
  - intros mockStudents d sid t Hbest Ht Hle. unfold onDetection. rewrite Hbest.
    destruct (List.find _ _) as [student|] eqn:Hfind; [|done].
    apply find_by_id in Hfind as ->.
    unfold cooldownElapsed. rewrite Ht.
    apply Hnz in Ht. apply Z.eqb_neq in Ht as ->.
    by replace (8000 <? clock d - t) with false by (symmetry; apply Z.ltb_ge; lia).
  - intros mockStudents d Hchange.
    destruct (onDetection_cases mockStudents s d)
      as [_ _ Hc _|student _ _ _ _ _ Hc _|student Hbest Hcool _ _ _ _ _]; [done..|].
    exists student. split; [done|]. by apply cooldownElapsed_true.
Qed.

Lemma C4_cooldown_witness :
  onDetection directory (run checkin (initialSession []) scenario)
    (mkDetection (Some 1) 6000)
  = run checkin (initialSession []) scenario.
Proof.
  refine (proj1 (proj2 (C4_cooldown checkin [] scenario _))
            directory (mkDetection (Some 1) 6000) 1 1000 eq_refl _ _).
  - unfold scenario. repeat constructor; simpl; discriminate.
  - vm_compute. reflexivity.
  - simpl. lia.
Defined.

Lemma detectionResolves_while_processing mode s mockStudents detections :
  isProcessing s = true →
  let s' := step mode s (DetectionResolves mockStudents detections) in
  isProcessing s' = true ∧
  countdownTimers s' = countdownTimers s ∧
  apiCalls s' = apiCalls s ∧
  settleTimers s' = settleTimers s ∧
  mockAttendance s' = mockAttendance s ∧
  startedCommits s' = startedCommits s.
Proof.
  intros Hp. simpl. unfold detectionResolves.
  destruct (awaitingDetection s) as [|n]; [done|].
  destruct detections as [|d ds].
  - simpl. by rewrite Hp.
  - by apply (foldl_onDetection_while_processing mockStudents (d :: ds)
                (mkSession _ _ _ _ _ _ _ _ _)).
Qed.

(** In every run of one instance the number of commit attempts in flight
    is at most one, and it is one exactly when the processing flag is set;
    while the flag is set, detection results arm nothing. *)
Lemma session_single_commit_in_flight
    (mode : Mode) (store : list AttendanceRecord) (events : list Event) :
  let s := run mode (initialSession store) events in
  (inFlight s ≤ 1)%nat ∧
  (isProcessing s = true ↔ inFlight s = 1%nat) ∧
  (isProcessing s = true →
   ∀ mockStudents detections,
     let s' := step mode s (DetectionResolves mockStudents detections) in
     isProcessing s' = true ∧
     countdownTimers s' = countdownTimers s ∧
     apiCalls s' = apiCalls s ∧
     settleTimers s' = settleTimers s ∧
     mockAttendance s' = mockAttendance s ∧
     startedCommits s' = startedCommits s).
Proof.
  intros s.
  assert (guardInv s) as Hinv by (by apply run_guardInv).
  unfold guardInv in Hinv. split; [destruct (isProcessing s); lia|]. split.
  - destruct (isProcessing s); [done|]. rewrite Hinv. split; discriminate.
  - intros Hp mockStudents detections. simpl. unfold detectionResolves.
    destruct (awaitingDetection s) as [|n]; [done|].
    destruct detections as [|d ds].
    + simpl. by rewrite Hp.
    + by apply (foldl_onDetection_while_processing mockStudents (d :: ds)
                  (mkSession _ _ _ _ _ _ _ _ _)).
Qed.

(** Every instance of every run of the world keeps its own guard. *)
Lemma worldStep_guardInv w ev :
  Forall (λ m, guardInv (session m)) (mounts w) →
  Forall (λ m, guardInv (session m)) (mounts (worldStep w ev)).
Proof.
  intros Hall. destruct ev as [mode|i|i e|]; simpl; [| | |done].
  - apply Forall_app. split; [done|]. by repeat constructor.
  - destruct (mounts w !! i) as [m|] eqn:Hi; [|done]. simpl.
    apply Forall_insert; [done|]. simpl. by eapply (Forall_lookup_1 _ _ _ _ Hall).
  - destruct (mounts w !! i) as [m|] eqn:Hi; [|done].
    destruct (isTimerFires e && negb (mounted m)); [done|]. simpl.
    apply Forall_insert; [done|]. simpl.
    assert (guardInv (step (mount_mode m) (withStore (worldStore w) (session m)) e))
      as Hstep.
    { apply step_guardInv. apply (guardInv_ext (session m)); try done.
      by eapply (Forall_lookup_1 _ _ _ _ Hall). }
    destruct (mounted m); [done|]. by apply (guardInv_ext _ _ eq_refl eq_refl eq_refl eq_refl).
Qed.

Lemma worldRun_guardInv events : ∀ w,
  Forall (λ m, guardInv (session m)) (mounts w) →
  Forall (λ m, guardInv (session m)) (mounts (worldRun w events)).
Proof.
  induction events as [|ev events IH]; intros w Hw; [done|].
  unfold worldRun. simpl. by apply IH, worldStep_guardInv.
Qed.

(** C5 fails on the code: the processing flag is a ref of one page instance
    and leaving a page cancels none of its pending timers. A page that is
    left after it locked a student still runs its commit, and the page
    entered next starts a commit of its own while the first is in flight. *)
Lemma C5_two_pages_two_commits :
  worldInFlight (worldRun (initialWorld []) leaveAndReenter) = 2%nat ∧
  worldStore (worldRun (initialWorld []) leaveAndReenter) =
    [mkRecord 1 "2024-05-01" (Some "08:05") None Present] ∧
  ¬ atMostOneCommitInFlight (worldRun (initialWorld []) leaveAndReenter).
Proof.
  assert (worldInFlight (worldRun (initialWorld []) leaveAndReenter) = 2%nat) as H2
    by (vm_compute; reflexivity).
  split; [done|]. split; [vm_compute; reflexivity|].
  unfold atMostOneCommitInFlight. rewrite H2. lia.
Qed.

(** C5 as amended. In every run of the application, with pages entered and
    left in any order, each page instance has at most one commit attempt in
    flight, and has one exactly when its own processing flag is set. While
    the flag of an instance is set, detection results of that instance,
    however many identities they recognise, change neither the store nor
    the instance's pending timers, recorder calls and started attempts:
    nothing is started and nothing is queued. *)
Theorem C5_one_commit_per_page
    (store : list AttendanceRecord) (events : list WorldEvent) (i : nat) (m : Mount) :
  mounts (worldRun (initialWorld store) events) !! i = Some m →
  (inFlight (session m) ≤ 1)%nat ∧
  (isProcessing (session m) = true ↔ inFlight (session m) = 1%nat) ∧
  (isProcessing (session m) = true →
   ∀ mockStudents detections,
     let w := worldRun (initialWorld store) events in
     let w' := worldStep w (PageEvent i (DetectionResolves mockStudents detections)) in
     worldStore w' = worldStore w ∧
     ∃ m', mounts w' !! i = Some m' ∧
           isProcessing (session m') = true ∧
           countdownTimers (session m') = countdownTimers (session m) ∧
           apiCalls (session m') = apiCalls (session m) ∧
           settleTimers (session m') = settleTimers (session m) ∧
           startedCommits (session m') = startedCommits (session m)).
Proof.
  intros Hi.
  assert (guardInv (session m)) as Hinv.
  { eapply (Forall_lookup_1 (λ m, guardInv (session m))); [|exact Hi].
    apply worldRun_guardInv. constructor. }
  unfold guardInv in Hinv. split; [destruct (isProcessing (session m)); lia|]. split.
  - destruct (isProcessing (session m)); [done|]. rewrite Hinv. split; discriminate.
  - intros Hp mockStudents detections. cbv zeta.
    set (w := worldRun (initialWorld store) events) in *.
    unfold worldStep. rewrite Hi. simpl.
    destruct (detectionResolves_while_processing (mount_mode m)
                (withStore (worldStore w) (session m)) mockStudents detections Hp)
      as (Hp' & Hc & Ha & Hs & Hm & Hl).
    simpl in Hc, Ha, Hs, Hm, Hl. simpl. split; [done|].
    eexists. split.
    { apply list_lookup_insert_eq. by eapply lookup_lt_Some. }
    simpl. by destruct (mounted m).
Qed.

Lemma C5_one_commit_per_page_witness :
  (inFlight (session secondPage) ≤ 1)%nat.
Proof.
  refine (proj1 (C5_one_commit_per_page [] leaveAndReenter 1 secondPage _)).
  vm_compute. reflexivity.
Defined.

(** C9 fails on the code: the guard of the interval callback tests the
    commit flag, which a pending detection call does not set, so a second
    tick that fires before the first detection resolves issues a second
    detection call. *)
Lemma C9_second_tick_detects_again :
  awaitingDetection afterFirstTick = 1%nat ∧
  isProcessing afterFirstTick = false ∧
  awaitingDetection (step checkin afterFirstTick (TimerFires true)) = 2%nat ∧
  ¬ detectionCallsNeverOverlap checkin afterFirstTick.
Proof.
  split; [reflexivity|]. split; [reflexivity|]. split; [reflexivity|].
  intros Hnever. specialize (Hnever (Nat.lt_0_succ 0) true). discriminate Hnever.
Qed.

(** C9 as amended. The interval callback issues a detection call exactly when
    the camera, the matcher and the overlay are ready and the commit flag is
    clear, whether or not earlier detection calls are outstanding; while the
    commit flag is set the callback does nothing at all. *)
Theorem C9_tick_guard (mode : Mode) (s : Session) (cameraReady : bool) :
  awaitingDetection (step mode s (TimerFires cameraReady)) =
    (if cameraReady && negb (isProcessing s)
     then S (awaitingDetection s) else awaitingDetection s) ∧
  (isProcessing s = true → step mode s (TimerFires cameraReady) = s).
Proof.
  simpl. unfold timerFires. split.
  - by destruct cameraReady, (isProcessing s).
  - intros ->. by rewrite orb_true_r.
Qed.

(** C10. When the loop body recognises a student whose cooldown has elapsed
    while the processing flag is set, it stores the current clock reading as
    that student's cooldown timestamp and starts no commit attempt: the flag,
    the timers, the store and the list of started attempts are unchanged.
    With that timestamp stored, a recognition of the same student at most
    8000 ms later changes nothing. *)
Theorem C10_cooldown_reset_while_processing
    (mockStudents : list Student) (s : Session) (d : Detection)
    (studentId : Z) (student : Student) :
  isProcessing s = true →
  bestMatch d = Some studentId →
  List.find (λ st, bool_decide (id st = studentId)) mockStudents = Some student →
  cooldownElapsed (recognitionCooldown s) (pretty (id student)) (clock d) = true →
  let s' := onDetection mockStudents s d in
  recognitionCooldown s' !! pretty studentId = Some (clock d) ∧
  isProcessing s' = true ∧
  countdownTimers s' = countdownTimers s ∧
  apiCalls s' = apiCalls s ∧
  settleTimers s' = settleTimers s ∧
  mockAttendance s' = mockAttendance s ∧
  startedCommits s' = startedCommits s ∧
  (clock d ≠ 0 →
   ∀ mockStudents' d',
     bestMatch d' = Some studentId → clock d' - clock d ≤ 8000 →
     onDetection mockStudents' s' d' = s').
Proof.
  intros Hp Hbest Hfind Hcool s'.
  assert (id student = studentId) as Hid by by eapply find_by_id.
  assert (recognitionCooldown s' !! pretty studentId = Some (clock d)) as Hstored.
  { unfold s', onDetection, startFastAttendance. rewrite Hbest, Hfind, Hcool. simpl.
    rewrite Hp. simpl. rewrite Hid. apply lookup_insert_eq. }
  destruct (onDetection_while_processing mockStudents s d Hp) as (Hp' & Hc & Hl).
  destruct (onDetection_frame mockStudents s d) as (_ & Ha & Hs & Hm).
  repeat (split; [done|]).
  intros Hclock mockStudents' d' Hbest' Hle. unfold onDetection. rewrite Hbest'.
  destruct (List.find _ mockStudents') as [student'|] eqn:Hfind'; [|done].
  apply find_by_id in Hfind' as ->.
  unfold cooldownElapsed. fold s'. rewrite Hstored.
  apply Z.eqb_neq in Hclock as ->.
  by replace (8000 <? clock d' - clock d) with false by (symmetry; apply Z.ltb_ge; lia).
Qed.

Lemma C10_cooldown_reset_while_processing_witness :
  recognitionCooldown (onDetection directory lockedBySomchai (mkDetection (Some 4) 1001))
    !! pretty 4 = Some 1001 ∧
  startedCommits (onDetection directory lockedBySomchai (mkDetection (Some 4) 1001))
    = [(1, 1000)].
Proof.
  pose proof (C10_cooldown_reset_while_processing directory lockedBySomchai
                (mkDetection (Some 4) 1001) 4 pitiStudent
                eq_refl eq_refl eq_refl eq_refl) as (H1 & _ & _ & _ & _ & _ & H2 & _).
  split; [exact H1 | exact H2].
Defined.

(** ** Lemmas on binary64 comparison *)

(** Comparison of binary64 numbers: swapping the operands flips the result,
    and a NaN compares with nothing. *)
Lemma SFcompare_swap a b : SFcompare b a = option_map CompOpp (SFcompare a b).
Proof.
  destruct a as [sa|sa| |sa ma ea], b as [sb|sb| |sb mb eb]; simpl;
    try done; try (by destruct sa); try (by destruct sb); try (by destruct sa, sb).
  destruct sa, sb; simpl; try done; f_equal;
    rewrite (Z.compare_antisym ea eb); destruct (ea ?= eb)%Z; simpl; try done;
    by rewrite (Pos.compare_cont_antisym ma mb Eq).
Qed.

Lemma float_leb_not_ltb (x y : float) : (x <=? y)%float = true → (y <? x)%float = false.
Proof.
  rewrite leb_spec, ltb_spec. unfold SFleb, SFltb.
  rewrite (SFcompare_swap (Prim2SF x) (Prim2SF y)).
  by destruct (SFcompare (Prim2SF x) (Prim2SF y)) as [[]|].
Qed.

(** ** The claim on the registration quality gate *)

(** C6. With exactly one detected face, let the ratio be the face's box
    width times its box height, divided by the frame width times the frame
    height. If the ratio is at most 0.05 or at least 0.4 the capture control
    is disabled and the stored descriptor is cleared; if the ratio is
    strictly between 0.05 and 0.4 the capture control is enabled and the
    face's descriptor is stored. With no face or more than one face the
    capture control is disabled and the stored descriptor is cleared. *)
Theorem C6_quality_gate_bounds
    (resizedDetections : list FaceDetection) (clientWidth clientHeight : float)
    (g : Gate) :
  let g' := registrationTick true resizedDetections clientWidth clientHeight g in
  (∀ (boxWidth boxHeight : float) (faceDescriptor0 : list float),
     resizedDetections = [mkFace (mkBox boxWidth boxHeight) faceDescriptor0] →
     let ratio := ((boxWidth * boxHeight) / (clientWidth * clientHeight))%float in
     ((ratio <=? 0.05)%float = true ∨ (0.4 <=? ratio)%float = true →
      showCaptureButton g' = false ∧ faceDescriptor g' = None) ∧
     ((0.05 <? ratio)%float = true ∧ (ratio <? 0.4)%float = true →
      showCaptureButton g' = true ∧ faceDescriptor g' = Some faceDescriptor0)) ∧
  (length resizedDetections ≠ 1%nat →
   showCaptureButton g' = false ∧ faceDescriptor g' = None).
Proof.
  simpl. split.
  - intros boxWidth boxHeight faceDescriptor0 ->. unfold onFaces, faceSizeRatio.
    simpl. split.
    + intros [Hsmall|Hlarge].
      * apply float_leb_not_ltb in Hsmall. by rewrite Hsmall.
      * apply float_leb_not_ltb in Hlarge. rewrite Hlarge. by rewrite andb_false_r.
    + intros [-> ->]. done.
  - intros Hlen. by destruct resizedDetections as [|d1 [|d2 ds]].
Qed.

(** A 128 by 120 box on a 640 by 480 frame has ratio 0.05 and a 384 by 320
    box has ratio 0.4: both are refused; a 200 by 200 box is accepted. *)
Lemma C6_quality_gate_bounds_witness :
  (showCaptureButton
     (registrationTick true [mkFace (mkBox 128 120) [0.5%float]] 640 480
        (mkGate (Some [0.25%float]) true GoodFace)) = false ∧
   faceDescriptor
     (registrationTick true [mkFace (mkBox 128 120) [0.5%float]] 640 480
        (mkGate (Some [0.25%float]) true GoodFace)) = None) ∧
  (showCaptureButton
     (registrationTick true [mkFace (mkBox 384 320) [0.5%float]] 640 480
        (mkGate (Some [0.25%float]) true GoodFace)) = false ∧
   faceDescriptor
     (registrationTick true [mkFace (mkBox 384 320) [0.5%float]] 640 480
        (mkGate (Some [0.25%float]) true GoodFace)) = None) ∧
  (showCaptureButton
     (registrationTick true [mkFace (mkBox 200 200) [0.5%float]] 640 480
        (mkGate None false NoFace)) = true ∧
   faceDescriptor
     (registrationTick true [mkFace (mkBox 200 200) [0.5%float]] 640 480
        (mkGate None false NoFace)) = Some [0.5%float]).
Proof.
  split; [|split].
  - apply (proj1 (proj1 (C6_quality_gate_bounds
                           [mkFace (mkBox 128 120) [0.5%float]] 640 480
                           (mkGate (Some [0.25%float]) true GoodFace))
                    128%float 120%float [0.5%float] eq_refl)).
    left. reflexivity.
  - apply (proj1 (proj1 (C6_quality_gate_bounds
                           [mkFace (mkBox 384 320) [0.5%float]] 640 480
                           (mkGate (Some [0.25%float]) true GoodFace))
                    384%float 320%float [0.5%float] eq_refl)).
    right. reflexivity.
  - apply (proj2 (proj1 (C6_quality_gate_bounds
                           [mkFace (mkBox 200 200) [0.5%float]] 640 480
                           (mkGate None false NoFace))
                    200%float 200%float [0.5%float] eq_refl)).
    split; reflexivity.
Defined.

(* set_solver clears hypotheses by name and warns when one is already gone. *)
Local Set Warnings "-clear-no-such-hyp".

(** ** Further lemmas on the session *)

Lemma onDetection_display_frame mockStudents s d :
  recentActivities (display (onDetection mockStudents s d)) = recentActivities (display s) ∧
  countToday (display (onDetection mockStudents s d)) = countToday (display s).
Proof.
  unfold onDetection, startFastAttendance.
  destruct (bestMatch d) as [studentId|].
  - destruct (List.find _ _) as [student|]; [|done].
    destruct (cooldownElapsed _ _ _); [|done]. simpl.
    by destruct (isProcessing s).
  - by destruct (isProcessing s).
Qed.

Lemma foldl_onDetection_frame mockStudents ds : ∀ s,
  let s' := foldl (onDetection mockStudents) s ds in
  mockAttendance s' = mockAttendance s ∧
  recentActivities (display s') = recentActivities (display s) ∧
  countToday (display s') = countToday (display s).
Proof.
  induction ds as [|d ds IH]; intros s; [done|].
  simpl. destruct (IH (onDetection mockStudents s d)) as (-> & -> & ->).
  destruct (onDetection_frame mockStudents s d) as (_ & _ & _ & ->).
  by destruct (onDetection_display_frame mockStudents s d) as (-> & ->).
Qed.

(** Every event but the recorder call leaves the store, the activity feed
    and the counter alone. *)
Lemma step_frame mode s e :
  (∀ today timeNow cfg, e ≠ ApiCallFires today timeNow cfg) →
  mockAttendance (step mode s e) = mockAttendance s ∧
  recentActivities (display (step mode s e)) = recentActivities (display s) ∧
  countToday (display (step mode s e)) = countToday (display s).
Proof.
  intros Hne. destruct e as [cameraReady|mockStudents ds| |today timeNow cfg|]; simpl.
  - unfold timerFires. by destruct (negb cameraReady || isProcessing s).
  - unfold detectionResolves. destruct (awaitingDetection s); [done|].
    destruct ds as [|d ds].
    + simpl. by destruct (isProcessing s).
    + by destruct (foldl_onDetection_frame mockStudents (d :: ds)
                     (mkSession (isProcessing s) (recognitionCooldown s) n
                        (countdownTimers s) (apiCalls s) (settleTimers s)
                        (mockAttendance s)
                        (mkDisplay (statusType (display s)) (currentStudent (display s))
                           (recentActivities (display s)) (countToday (display s))
                           (S (facesProcessed (display s))))
                        (startedCommits s))) as (-> & -> & ->).
  - unfold countdownFires. by destruct (countdownTimers s).
  - by destruct (Hne today timeNow cfg).
  - unfold settleFires. by destruct (settleTimers s).
Qed.

Lemma sameEntry_trans a b c : sameEntry a b → sameEntry b c → sameEntry a c.
Proof. unfold sameEntry. intros (? & ? & ?) (? & ? & ?). repeat split; congruence. Qed.

Lemma event_is_api_call (e : Event) :
  (∃ today timeNow cfg, e = ApiCallFires today timeNow cfg) ∨
  (∀ today timeNow cfg, e ≠ ApiCallFires today timeNow cfg).
Proof. destruct e; eauto; right; discriminate. Qed.

(** ** Further properties of the session *)


Lemma step_checkin_store s e :
  ∃ new, mockAttendance (step checkin s e) = new ++ mockAttendance s ∧
         Forall (λ r, is_Some (checkIn r) ∧ checkOut r = None) new.
Proof.
  destruct (event_is_api_call e) as [(today & timeNow & cfg & ->)|Hne].
  - simpl. unfold apiCallFires. destruct (apiCalls s) as [|student rest]; [by exists []|].
    simpl. unfold recordAttendance.
    destruct (findIndex _ _ _) as [[i r]|]; simpl; [by exists []|].
    eexists [_]. split; [done|]. by repeat constructor.
  - destruct (step_frame checkin s e Hne) as (-> & _ & _). by exists [].
Qed.

Lemma step_checkout_store s e :
  Forall2 sameEntry (mockAttendance s) (mockAttendance (step checkout s e)).
Proof.
  assert (Forall2 sameEntry (mockAttendance s) (mockAttendance s)) as Hrefl.
  { apply Forall_Forall2_diag, Forall_forall. intros. apply sameEntry_refl. }
  destruct (event_is_api_call e) as [(today & timeNow & cfg & ->)|Hne].
  - simpl. unfold apiCallFires. destruct (apiCalls s) as [|student rest]; [done|].
    simpl. unfold recordAttendance.
    destruct (findIndex _ _ _) as [[i r]|] eqn:Hfind; simpl; [|done].
    apply findIndex_lookup in Hfind as [Hi _].
    eapply insert_sameEntry; [done | apply applyCheckOut_sameEntry].
  - by destruct (step_frame checkout s e Hne) as (-> & _ & _).
Qed.

Lemma pagesEntered_cons ev events :
  pagesEntered (ev :: events) = pagesEntered [ev] ++ pagesEntered events.
Proof. by destruct ev. Qed.

(** The store after one event of a world whose instances all have the same
    mode is the store after one step of that mode, or the store as it was. *)
Lemma worldStep_store mode w ev :
  ev ≠ ClearAttendance →
  Forall (λ m, mount_mode m = mode) (mounts w) →
  Forall (λ mode', mode' = mode) (pagesEntered [ev]) →
  Forall (λ m, mount_mode m = mode) (mounts (worldStep w ev)) ∧
  (worldStore (worldStep w ev) = worldStore w ∨
   ∃ s e, mockAttendance s = worldStore w ∧
          worldStore (worldStep w ev) = mockAttendance (step mode s e)).
Proof.
  intros Hclear Hall Hentered. destruct ev as [mode'|i|i e|]; simpl; [| | |done].
  - split; [|by left]. apply Forall_app. split; [done|].
    apply Forall_cons in Hentered as [-> _]. by repeat constructor.
  - destruct (mounts w !! i) as [m|] eqn:Hi; [|by split; [|left]]. simpl.
    split; [|by left]. apply Forall_insert; [done|]. simpl.
    by eapply (Forall_lookup_1 _ _ _ _ Hall).
  - destruct (mounts w !! i) as [m|] eqn:Hi; [|by split; [|left]].
    destruct (isTimerFires e && negb (mounted m)); [by split; [|left]|]. simpl.
    pose proof (Forall_lookup_1 _ _ _ _ Hall Hi) as Hmode. simpl in Hmode.
    split; [by apply Forall_insert|]. right.
    exists (withStore (worldStore w) (session m)), e. by rewrite Hmode.
Qed.

(** X2. As long as every scan page entered is the check-in page and the
    store is not cleared from the settings page, the store of the
    application, with pages entered and left in any order and commits of
    pages already left still running, is the initial store with new records
    put in front of it: no record of the initial store is changed, moved or
    removed, and every new record has a check-in time and no check-out
    time. *)
Theorem X2_check_in_pages_only_add
    (store : list AttendanceRecord) (events : list WorldEvent) :
  ClearAttendance ∉ events →
  Forall (λ mode, mode = checkin) (pagesEntered events) →
  ∃ new,
    worldStore (worldRun (initialWorld store) events) = new ++ store ∧
    Forall (λ r, is_Some (checkIn r) ∧ checkOut r = None) new.
Proof.
  assert (∀ w, ClearAttendance ∉ events →
               Forall (λ mode, mode = checkin) (pagesEntered events) →
               Forall (λ m, mount_mode m = checkin) (mounts w) →
               (∃ new, worldStore w = new ++ store ∧
                       Forall (λ r, is_Some (checkIn r) ∧ checkOut r = None) new) →
               ∃ new, worldStore (worldRun w events) = new ++ store ∧
                      Forall (λ r, is_Some (checkIn r) ∧ checkOut r = None) new) as Hrun.
  { induction events as [|ev events IH]; intros w Hclear Hentered Hall Hw; [done|].
    apply not_elem_of_cons in Hclear as [Hev Hclear].
    rewrite pagesEntered_cons in Hentered.
    apply Forall_app in Hentered as [Hev' Hentered].
    destruct (worldStep_store checkin w ev (not_eq_sym Hev) Hall Hev') as [Hall' Hstore].
    unfold worldRun. simpl. apply IH; [done..|].
    destruct Hw as (new & Hnew & Hshape).
    destruct Hstore as [->|(s & e & Hs & ->)]; [by eauto|].
    destruct (step_checkin_store s e) as (new' & -> & Hshape').
    exists (new' ++ new). rewrite Hs, Hnew, (assoc_L (++)). split; [done|].
    by apply Forall_app. }
  intros Hclear Hentered. apply Hrun; [done..| constructor |]. by exists [].
Qed.

Lemma X2_check_in_pages_only_add_witness :
  ∃ new,
    worldStore (worldRun (initialWorld store1) leaveAndReenter) = new ++ store1 ∧
    Forall (λ r, is_Some (checkIn r) ∧ checkOut r = None) new.
Proof.
  apply (X2_check_in_pages_only_add store1 leaveAndReenter).
  - intros H. repeat (apply elem_of_cons in H as [H|H]; [discriminate|]).
    by apply elem_of_nil in H.
  - simpl. by repeat constructor.
Defined.

(** X3. As long as every scan page entered is the check-out page and the
    store is not cleared from the settings page, the store of the
    application, with pages entered and left in any order and commits of
    pages already left still running, keeps its length, and the record at
    each index keeps its student, its day and its check-in time: check-out
    pages create no record and never alter who checked in when. *)
Theorem X3_check_out_pages_keep_entries
    (store : list AttendanceRecord) (events : list WorldEvent) :
  ClearAttendance ∉ events →
  Forall (λ mode, mode = checkout) (pagesEntered events) →
  Forall2 sameEntry store (worldStore (worldRun (initialWorld store) events)).
Proof.
  assert (∀ w, ClearAttendance ∉ events →
               Forall (λ mode, mode = checkout) (pagesEntered events) →
               Forall (λ m, mount_mode m = checkout) (mounts w) →
               Forall2 sameEntry store (worldStore w) →
               Forall2 sameEntry store (worldStore (worldRun w events))) as Hrun.
  { induction events as [|ev events IH]; intros w Hclear Hentered Hall Hw; [done|].
    apply not_elem_of_cons in Hclear as [Hev Hclear].
    rewrite pagesEntered_cons in Hentered.
    apply Forall_app in Hentered as [Hev' Hentered].
    destruct (worldStep_store checkout w ev (not_eq_sym Hev) Hall Hev') as [Hall' Hstore].
    unfold worldRun. simpl. apply IH; [done..|].
    destruct Hstore as [->|(s & e & Hs & ->)]; [done|].
    apply (Forall2_trans sameEntry sameEntry sameEntry _ (worldStore w));
      [apply sameEntry_trans | exact Hw |].
    rewrite <- Hs. apply step_checkout_store. }
  intros Hclear Hentered. apply Hrun; [done..| constructor |].
  apply Forall_Forall2_diag, Forall_forall. intros. apply sameEntry_refl.
Qed.

Lemma X3_check_out_pages_keep_entries_witness :
  Forall2 sameEntry storeLate (worldStore (worldRun (initialWorld storeLate) checkOutVisit)).
Proof.
  apply (X3_check_out_pages_keep_entries storeLate checkOutVisit).
  - intros H. repeat (apply elem_of_cons in H as [H|H]; [discriminate|]).
    by apply elem_of_nil in H.
  - simpl. by repeat constructor.
Defined.

Lemma sameCore_refl s : sameCore s s.
Proof. by repeat split. Qed.

Lemma sameCore_trans s1 s2 s3 : sameCore s1 s2 → sameCore s2 s3 → sameCore s1 s3.
Proof.
  unfold sameCore. intros (? & ? & ? & ? & ? & ? & ?) (? & ? & ? & ? & ? & ? & ?).
  repeat split; congruence.
Qed.

Lemma onDetection_unmatched mockStudents s d :
  unmatched mockStudents d → sameCore s (onDetection mockStudents s d).
Proof.
  unfold unmatched, onDetection. destruct (bestMatch d) as [studentId|].
  - intros ->. apply sameCore_refl.
  - intros _. destruct (isProcessing s); by repeat split.
Qed.

Lemma foldl_onDetection_unmatched mockStudents ds : ∀ s,
  Forall (unmatched mockStudents) ds →
  sameCore s (foldl (onDetection mockStudents) s ds).
Proof.
  induction ds as [|d ds IH]; intros s Hds; [apply sameCore_refl|].
  apply Forall_cons in Hds as [Hd Hds]. simpl.
  eapply sameCore_trans; [by apply onDetection_unmatched | by apply IH].
Qed.

Lemma step_unmatched mode s mockStudents detections :
  Forall (unmatched mockStudents) detections →
  sameCore s (step mode s (DetectionResolves mockStudents detections)).
Proof.
  intros Hds. simpl. unfold detectionResolves.
  destruct (awaitingDetection s) as [|n]; [apply sameCore_refl|].
  destruct detections as [|d ds].
  - unfold sameCore. simpl. by destruct (isProcessing s).
  - eapply sameCore_trans; [|by apply foldl_onDetection_unmatched].
    by repeat split.
Qed.

(** X4. Detection results in which every face is unknown to the matcher, or
    carries the id of a student who is not in the directory, start nothing:
    the flag, the cooldown timestamps, the timers, the pending recorder
    calls, the store and the list of started commits stay as they were. *)
Theorem X4_unknown_faces_start_nothing
    (mode : Mode) (s : Session) (mockStudents : list Student)
    (detections : list Detection) :
  Forall (unmatched mockStudents) detections →
  sameCore s (step mode s (DetectionResolves mockStudents detections)).
Proof. apply step_unmatched. Qed.

Lemma X4_unknown_faces_start_nothing_witness :
  sameCore afterFirstTick
    (step checkin afterFirstTick
       (DetectionResolves directory [mkDetection None 1000; mkDetection (Some 9) 1001])).
Proof.
  apply X4_unknown_faces_start_nothing.
  repeat constructor.
Defined.

(** X5. From an idle session that awaits a detection, the recognition of a
    student of the directory whose cooldown has elapsed, followed by the
    countdown, the recorder call and the release timer, runs the recorder
    exactly once for that student on the store as it was, stores the clock
    reading as the student's cooldown timestamp, and ends idle again with
    nothing in flight; a recorded result is at the head of the activity
    feed. *)
Theorem X5_recognition_runs_one_commit
    (mode : Mode) (s : Session) (mockStudents : list Student) (d : Detection)
    (studentId : Z) (student : Student) (today timeNow : string) (cfg : Settings) :
  guardInv s →
  isProcessing s = false →
  awaitingDetection s ≠ 0%nat →
  bestMatch d = Some studentId →
  List.find (λ st, bool_decide (id st = studentId)) mockStudents = Some student →
  cooldownElapsed (recognitionCooldown s) (pretty (id student)) (clock d) = true →
  let s' := run mode s [DetectionResolves mockStudents [d]; CountdownFires;
                        ApiCallFires today timeNow cfg; SettleFires] in
  let result := recordAttendance mode student today timeNow cfg (mockAttendance s) in
  mockAttendance s' = snd result ∧
  isProcessing s' = false ∧ inFlight s' = 0%nat ∧
  recognitionCooldown s' !! pretty studentId = Some (clock d) ∧
  startedCommits s' = (studentId, clock d) :: startedCommits s ∧
  currentStudent (display s') = None ∧
  (∀ t st, fst result = Recorded t st →
     recentActivities (display s') =
       mkActivity student t st :: take 7 (recentActivities (display s)) ∧
     countToday (display s') = S (countToday (display s))).
Proof.
  intros Hinv Hp Hawait Hbest Hfind Hcool.
  assert (id student = studentId) as Hid by by eapply find_by_id.
  unfold guardInv, inFlight in Hinv. rewrite Hp in Hinv.
  destruct (countdownTimers s) as [|c cs] eqn:Hc; [|simpl in Hinv; lia].
  destruct (apiCalls s) as [|a cs'] eqn:Ha; [|simpl in Hinv; lia].
  destruct (settleTimers s) as [|k] eqn:Hs; [|simpl in Hinv; lia].
  destruct (awaitingDetection s) as [|n] eqn:Hn; [done|].
  unfold run. simpl. unfold detectionResolves. rewrite Hn. simpl.
  unfold onDetection. rewrite Hbest, Hfind. simpl. rewrite Hcool.
  unfold startFastAttendance. simpl. rewrite Hp.
  unfold countdownFires. simpl. rewrite Hc. simpl.
  unfold apiCallFires. simpl. rewrite Ha. simpl.
  unfold settleFires. simpl. rewrite Hs. simpl.
  unfold inFlight. simpl. rewrite Hid.
  split; [done|]. split; [done|]. split; [done|].
  split; [apply lookup_insert_eq|]. split; [done|]. split; [done|].
  intros t st Hres. rewrite Hres. done.
Qed.

Lemma X5_recognition_runs_one_commit_witness :
  mockAttendance
    (run checkin afterFirstTick
       [DetectionResolves directory [mkDetection (Some 1) 1000]; CountdownFires;
        ApiCallFires "2024-05-01" "08:05" cfg0; SettleFires])
  = [mkRecord 1 "2024-05-01" (Some "08:05") None Present].
Proof.
  refine (proj1 (X5_recognition_runs_one_commit checkin afterFirstTick directory
                   (mkDetection (Some 1) 1000) 1 somchai "2024-05-01" "08:05" cfg0
                   eq_refl eq_refl _ eq_refl eq_refl eq_refl)).
  discriminate.
Defined.

(** ** Further properties of the attendance recorder *)

Lemma filter_insert_irrelevant {A} (P : A → Prop) `{∀ x, Decision (P x)}
    (l : list A) : ∀ (i : nat) (r r' : A),
  l !! i = Some r → ¬ P r → ¬ P r' → filter P (<[i := r']> l) = filter P l.
Proof.
  induction l as [|a l IH]; intros [|i] r r' Hi Hr Hr'; simpl in *; try done.
  - injection Hi as ->. by rewrite !filter_cons_False.
  - rewrite !filter_cons. by rewrite (IH i r r').
Qed.

Lemma same_day_applyCheckOut sid day timeNow st r :
  same_day sid day (applyCheckOut timeNow st r) ↔ same_day sid day r.
Proof.
  symmetry. apply sameEntry_same_day, applyCheckOut_sameEntry.
Qed.

(** X6. The result of a check-out never reports [Late]: it reports Early
    Leave before the configured check-out time and Present otherwise. For a
    record whose status is [Late] the status reported, which is the one the
    activity feed shows, therefore differs from the status stored, which
    stays [Late]. *)
Theorem X6_check_out_reports_computed_status
    (stu : Student) (today timeNow : string) (cfg : Settings)
    (store : list AttendanceRecord) (i : nat) (r : AttendanceRecord) :
  findIndex (id stu) today store = Some (i, r) →
  ∃ reported store',
    recordAttendance checkout stu today timeNow cfg store =
      (Recorded timeNow reported, store') ∧
    reported = (if js_lt timeNow (checkOutTime cfg) then EarlyLeave else Present) ∧
    reported ≠ Late ∧
    (status r = Late →
     ∃ r', store' !! i = Some r' ∧ status r' = Late ∧ status r' ≠ reported).
Proof.
  intros Hfind.
  set (reported := computeStatus checkout timeNow cfg).
  exists reported, (<[i := applyCheckOut timeNow reported r]> store).
  split; [unfold recordAttendance; by rewrite Hfind|].
  split; [done|].
  assert (reported ≠ Late) as Hne.
  { unfold reported, computeStatus. by destruct (js_lt _ _). }
  split; [done|]. intros Hlate.
  apply findIndex_lookup in Hfind as [Hi _].
  exists (applyCheckOut timeNow reported r).
  split; [apply list_lookup_insert_eq; by eapply lookup_lt_Some|].
  unfold applyCheckOut. simpl.
  rewrite decide_False by (intros Hn; by apply Hn). simpl.
  rewrite Hlate. split; [done|]. by intros <-.
Qed.

Lemma X6_check_out_reports_computed_status_witness :
  ∃ reported store',
    recordAttendance checkout somchai "2024-05-01" "15:50" cfg0 storeLate =
      (Recorded "15:50" reported, store') ∧
    reported = (if js_lt "15:50" (checkOutTime cfg0) then EarlyLeave else Present) ∧
    reported ≠ Late ∧
    (Late = Late →
     ∃ r', store' !! 1%nat = Some r' ∧ status r' = Late ∧ status r' ≠ reported).
Proof.
  apply (X6_check_out_reports_computed_status somchai "2024-05-01" "15:50" cfg0
           storeLate 1 (mkRecord 1 "2024-05-01" (Some "08:45") None Late)).
  reflexivity.
Defined.

(** X7. A store that holds at most one record for every student and day
    still does after any sequence of commits, of either mode. *)
Theorem X7_one_record_per_day_kept (store : list AttendanceRecord) (qs : list Request) :
  oneRecordPerDay store → oneRecordPerDay (commits store qs).
Proof. apply commits_oneRecordPerDay. Qed.

Lemma X7_one_record_per_day_kept_witness :
  (countRecords 1 "2024-05-01"
     (commits store1 [mkRequest checkin somchai "2024-05-01" "08:05" cfg0;
                      mkRequest checkout somchai "2024-05-01" "16:05" cfg0;
                      mkRequest checkin somchai "2024-05-01" "16:20" cfg0])
   ≤ 1)%nat.
Proof.
  refine (X7_one_record_per_day_kept store1 _ _ 1 "2024-05-01").
  intros sid day. unfold countRecords, store1. simpl.
  destruct (bool_decide _); simpl; lia.
Defined.

(** X8. A commit for one student and day leaves the records of every other
    student, and of the same student on every other day, exactly as they
    were. *)
Theorem X8_commit_touches_one_student_and_day
    (store : list AttendanceRecord) (q : Request) (sid : Z) (day : string) :
  ¬ (sid = id (req_student q) ∧ day = req_today q) →
  recordsOf sid day (snd (commit store q)) = recordsOf sid day store.
Proof.
  intros Hother. unfold commit, recordAttendance, recordsOf.
  destruct (req_mode q), (findIndex _ _ _) as [[i r]|] eqn:Hfind; simpl; try done.
  - rewrite filter_cons_False; [done|].
    intros [Hs Hd]. simpl in *. by apply Hother.
  - apply findIndex_lookup in Hfind as [Hi [Hs Hd]].
    apply (filter_insert_irrelevant _ _ _ r); [done|..].
    + intros [Hs' Hd']. apply Hother. split; congruence.
    + intros [Hs' Hd']%same_day_applyCheckOut. apply Hother. split; congruence.
Qed.

Lemma X8_commit_touches_one_student_and_day_witness :
  recordsOf 4 "2024-05-01"
    (snd (commit storeLate (mkRequest checkout somchai "2024-05-01" "15:50" cfg0)))
  = recordsOf 4 "2024-05-01" storeLate.
Proof.
  apply X8_commit_touches_one_student_and_day.
  simpl. intros [H _]. discriminate H.
Defined.

(** ** Lemmas on the student directory *)

Lemma directory_findIndex_lookup sid students i s :
  Directory.findIndex sid students = Some (i, s) →
  students !! i = Some s ∧ Directory.id s = sid.
Proof. unfold Directory.findIndex. rewrite list_find_Some. by intros (? & ? & _). Qed.

Lemma directory_findIndex_None sid students :
  Directory.findIndex sid students = None →
  ∀ s, s ∈ students → Directory.id s ≠ sid.
Proof.
  unfold Directory.findIndex. rewrite list_find_None, Forall_forall. done.
Qed.

Lemma elem_of_insert_inv {A} (l : list A) i x y :
  x ∈ <[i := y]> l → x = y ∨ x ∈ l.
Proof.
  intros [j Hj]%list_elem_of_lookup_1.
  apply list_lookup_insert_Some in Hj as [(_ & -> & _)|[_ Hj]]; [by left|].
  right. by eapply list_elem_of_lookup_2.
Qed.

Lemma filter_all {A} (P : A → Prop) `{∀ x, Decision (P x)} (l : list A) :
  length (filter P l) = length l → filter P l = l.
Proof.
  induction l as [|a l IH]; [done|].
  rewrite filter_cons. destruct (decide (P a)); simpl.
  - intros [= Hlen]. by rewrite IH.
  - pose proof (length_filter P l). lia.
Qed.

Lemma ids_insert (students : list Directory.Student) i s s' :
  students !! i = Some s → Directory.id s' = Directory.id s →
  Directory.id <$> <[i := s']> students = Directory.id <$> students.
Proof.
  intros Hi Hid. rewrite list_fmap_insert, Hid.
  apply list_insert_id. by rewrite list_lookup_fmap, Hi.
Qed.

Lemma ids_filter (students : list Directory.Student) x :
  Directory.id <$> filter (λ s, Directory.id s ≠ x) students =
  filter (λ k, k ≠ x) (Directory.id <$> students).
Proof.
  induction students as [|a l IH]; [done|].
  rewrite fmap_cons, !filter_cons.
  destruct (decide (Directory.id a ≠ x)); [rewrite fmap_cons; by f_equal | done].
Qed.

Lemma foldl_max_bounds (l : list Z) : ∀ a,
  a ≤ foldl Z.max a l ∧ Forall (λ k, k ≤ foldl Z.max a l) l.
Proof.
  induction l as [|b l IH]; intros a; simpl; [by split; [lia | constructor]|].
  destruct (IH (Z.max a b)) as [Hle Hall]. split; [lia|].
  constructor; [lia | done].
Qed.

Lemma initialState_idsFresh students :
  NoDup (Directory.id <$> students) → idsFresh (Directory.initialState students).
Proof.
  intros Hnd. split; [done|]. simpl.
  destruct students as [|s rest]; [constructor|].
  simpl. destruct (foldl_max_bounds (Directory.id <$> rest) (Directory.id s)) as [Hle Hall].
  constructor; [lia|].
  eapply Forall_impl; [exact Hall|]. simpl. intros k Hk. lia.
Qed.

(** Every action that finds its student replaces one entry by an entry with
    the same id, adds an entry with the next id, or filters the list. *)
Lemma perform_idsFresh d a : idsFresh d → idsFresh (snd (Directory.perform d a)).
Proof.
  intros [Hnd Hlt].
  assert (∀ i s s', Directory.mockStudents d !! i = Some s →
            Directory.id s' = Directory.id s →
            idsFresh (Directory.mkState (<[i := s']> (Directory.mockStudents d))
                        (Directory.nextStudentId d))) as Hreplace.
  { intros i s s' Hi Hid. unfold idsFresh. simpl. by rewrite (ids_insert _ i s s'). }
  destruct a as [[student|] formData|student|selected descriptor|sid|student url]; simpl.
  - unfold Directory.saveStudentAction.
    destruct (Directory.findIndex _ _) as [[i cur]|] eqn:Hfind; [|done].
    apply directory_findIndex_lookup in Hfind as [Hi Hid].
    by apply (Hreplace i cur).
  - split; simpl.
    + apply NoDup_cons. split; [|done].
      intros Hin. eapply Forall_forall in Hlt; [|exact Hin]. simpl in Hlt. lia.
    + constructor; [lia|]. eapply Forall_impl; [exact Hlt|]. simpl. intros k Hk. lia.
  - unfold Directory.deleteStudentAction.
    assert (idsFresh (Directory.mkState
                        (filter (λ s, Directory.id s ≠ Directory.id student)
                           (Directory.mockStudents d))
                        (Directory.nextStudentId d))) as Hfilter.
    { unfold idsFresh. simpl. rewrite ids_filter. split; [by apply NoDup_filter|].
      apply Forall_forall. intros k [_ Hk]%list_elem_of_filter.
      by eapply Forall_forall in Hlt. }
    by case_decide.
  - unfold Directory.registerAction.
    destruct (Directory.findIndex _ _) as [[i cur]|] eqn:Hfind; [|done].
    apply directory_findIndex_lookup in Hfind as [Hi Hid].
    by apply (Hreplace i cur).
  - unfold Directory.deleteFaceAction.
    destruct (Directory.findIndex _ _) as [[i cur]|] eqn:Hfind; [|done].
    apply directory_findIndex_lookup in Hfind as [Hi Hid].
    by apply (Hreplace i cur).
  - unfold Directory.uploadAction.
    destruct (Directory.findIndex _ _) as [[i cur]|] eqn:Hfind; [|done].
    apply directory_findIndex_lookup in Hfind as [Hi Hid].
    by apply (Hreplace i cur).
Qed.

Lemma performAll_idsFresh actions : ∀ d,
  idsFresh d → idsFresh (Directory.performAll d actions).
Proof.
  induction actions as [|a actions IH]; intros d Hd; [done|].
  unfold Directory.performAll. simpl. by apply IH, perform_idsFresh.
Qed.

(** The ids after an action are ids of before or the value of the counter. *)
Lemma perform_ids_Forall (P : Z → Prop) d a :
  Forall P (Directory.id <$> Directory.mockStudents d) →
  P (Directory.nextStudentId d) →
  Forall P (Directory.id <$> Directory.mockStudents (snd (Directory.perform d a))).
Proof.
  intros Hall Hnext.
  assert (∀ i s s', Directory.mockStudents d !! i = Some s →
            Directory.id s' = Directory.id s →
            Forall P (Directory.id <$> <[i := s']> (Directory.mockStudents d)))
    as Hreplace.
  { intros i s s' Hi Hid. by rewrite (ids_insert _ i s s'). }
  destruct a as [[student|] formData|student|selected descriptor|sid|student url]; simpl.
  - unfold Directory.saveStudentAction.
    destruct (Directory.findIndex _ _) as [[i cur]|] eqn:Hfind; [|done].
    apply directory_findIndex_lookup in Hfind as [Hi Hid].
    by apply (Hreplace i cur).
  - by constructor.
  - unfold Directory.deleteStudentAction.
    assert (Forall P (Directory.id <$>
                        filter (λ s, Directory.id s ≠ Directory.id student)
                          (Directory.mockStudents d))) as Hfilter.
    { rewrite ids_filter. apply Forall_forall. intros k [_ Hk]%list_elem_of_filter.
      by eapply Forall_forall in Hall. }
    by case_decide.
  - unfold Directory.registerAction.
    destruct (Directory.findIndex _ _) as [[i cur]|] eqn:Hfind; [|done].
    apply directory_findIndex_lookup in Hfind as [Hi Hid].
    by apply (Hreplace i cur).
  - unfold Directory.deleteFaceAction.
    destruct (Directory.findIndex _ _) as [[i cur]|] eqn:Hfind; [|done].
    apply directory_findIndex_lookup in Hfind as [Hi Hid].
    by apply (Hreplace i cur).
  - unfold Directory.uploadAction.
    destruct (Directory.findIndex _ _) as [[i cur]|] eqn:Hfind; [|done].
    apply directory_findIndex_lookup in Hfind as [Hi Hid].
    by apply (Hreplace i cur).
Qed.

(** An action leaves the counter or adds one to it. *)
Lemma perform_counter d a :
  Directory.nextStudentId d ≤ Directory.nextStudentId (snd (Directory.perform d a)) ≤
  Directory.nextStudentId d + 1.
Proof.
  destruct a as [[student|] formData|student|selected descriptor|sid|student url]; simpl.
  - unfold Directory.saveStudentAction.
    destruct (Directory.findIndex _ _) as [[i cur]|]; simpl; lia.
  - lia.
  - unfold Directory.deleteStudentAction. case_decide; simpl; lia.
  - unfold Directory.registerAction.
    destruct (Directory.findIndex _ _) as [[i cur]|]; simpl; lia.
  - unfold Directory.deleteFaceAction.
    destruct (Directory.findIndex _ _) as [[i cur]|]; simpl; lia.
  - unfold Directory.uploadAction.
    destruct (Directory.findIndex _ _) as [[i cur]|]; simpl; lia.
Qed.

(** With room for one increment per action, ids and counter stay safe
    integers. *)
Lemma performAll_safe actions : ∀ d,
  - maxSafeInteger ≤ Directory.nextStudentId d →
  Directory.nextStudentId d + Z.of_nat (length actions) ≤ maxSafeInteger →
  Forall (λ k, - maxSafeInteger ≤ k) (Directory.id <$> Directory.mockStudents d) →
  - maxSafeInteger ≤ Directory.nextStudentId (Directory.performAll d actions) ∧
  Directory.nextStudentId (Directory.performAll d actions) ≤ maxSafeInteger ∧
  Forall (λ k, - maxSafeInteger ≤ k)
    (Directory.id <$> Directory.mockStudents (Directory.performAll d actions)).
Proof.
  induction actions as [|a actions IH]; intros d Hlo Hhi Hids.
  - simpl in *. split; [done|]. split; [lia | done].
  - unfold Directory.performAll. simpl.
    pose proof (perform_counter d a) as Hc.
    apply IH.
    + lia.
    + cbn [length] in Hhi. lia.
    + by apply (perform_ids_Forall (λ k, - maxSafeInteger ≤ k)).
Qed.

Lemma initialNextStudentId_bounds (students : list Directory.Student) (lo hi : Z) :
  lo ≤ 0 → 0 < hi →
  Forall (λ k, lo ≤ k ∧ k < hi) (Directory.id <$> students) →
  lo ≤ Directory.initialNextStudentId students ≤ hi.
Proof.
  intros Hlo Hhi Hall. destruct students as [|s rest]; simpl; [lia|].
  rewrite fmap_cons in Hall. apply Forall_cons in Hall as [Hs Hrest].
  assert (∀ l a, lo ≤ a < hi → Forall (λ k, lo ≤ k ∧ k < hi) l →
                 lo ≤ foldl Z.max a l < hi) as Hmax.
  { induction l as [|b l IH]; intros a Ha Hl; [done|].
    apply Forall_cons in Hl as [Hb Hl]. simpl. apply IH; [lia | done]. }
  specialize (Hmax (Directory.id <$> rest) (Directory.id s) Hs Hrest). lia.
Qed.

(** ** Properties of the student directory *)

(** X9. Take a directory whose ids are distinct integers, none below
    -(2^53 - 1), with the counter for new ids as the module computes it on
    loading, and a sequence of directory actions (add, edit, delete, register
    face, delete face, upload image) short enough that one increment per
    action keeps every id and the counter below 2^53 - 1. Then the ids stay
    distinct and below the counter, so that a student that is added never
    receives the id of a student in the directory; and the counter and all
    ids stay safe integers, the range in which the additions of the program
    on its double-precision numbers are exact. Beyond that range the
    statement fails: at 2^53 the increment returns its argument. *)
Theorem X9_student_ids_stay_unique
    (students : list Directory.Student) (actions : list Directory.Action) :
  NoDup (Directory.id <$> students) →
  Z.of_nat (length actions) < maxSafeInteger →
  Forall (λ k, - maxSafeInteger ≤ k ∧ k + Z.of_nat (length actions) < maxSafeInteger)
    (Directory.id <$> students) →
  let d := Directory.performAll (Directory.initialState students) actions in
  idsFresh d ∧
  safeInteger (Directory.nextStudentId d) ∧
  Forall safeInteger (Directory.id <$> Directory.mockStudents d).
Proof.
  intros Hnd Hlen Hids d.
  assert (idsFresh d) as Hfresh by by apply performAll_idsFresh, initialState_idsFresh.
  pose proof (initialNextStudentId_bounds students (- maxSafeInteger)
                (maxSafeInteger - Z.of_nat (length actions))) as Hinit.
  destruct Hinit as [Hlo Hhi]; [unfold maxSafeInteger; lia | lia | |].
  { eapply Forall_impl; [exact Hids|]. simpl. lia. }
  destruct (performAll_safe actions (Directory.initialState students))
    as (Hlo' & Hhi' & Hids'); simpl; [lia | lia | |].
  { eapply Forall_impl; [exact Hids|]. simpl. lia. }
  fold d in Hlo', Hhi', Hids'. split; [done|]. split; [done|].
  destruct Hfresh as [_ Hlt]. apply Forall_forall. intros k Hk.
  eapply Forall_forall in Hlt; [|exact Hk]. eapply Forall_forall in Hids'; [|exact Hk].
  simpl in Hlt, Hids'. unfold safeInteger. lia.
Qed.

Lemma X9_student_ids_stay_unique_witness :
  idsFresh
    (Directory.performAll sampleDirectory
       [Directory.DeleteStudent rowMana;
        Directory.SaveStudent None sampleForm;
        Directory.SaveStudent None sampleForm]).
Proof.
  refine (proj1 (X9_student_ids_stay_unique [rowSomchai; rowMana] _ _ _ _)).
  - simpl. repeat constructor; rewrite ?elem_of_cons, ?elem_of_nil; intuition discriminate.
  - vm_compute. reflexivity.
  - repeat constructor; vm_compute; congruence.
Defined.

(** At 2^53 the increment of the program returns its argument. *)
Example increment_beyond_safe_integers :
  (9007199254740992 + 1)%float = 9007199254740992%float ∧
  Z.to_pos (maxSafeInteger + 1) = 9007199254740992%positive.
Proof. split; reflexivity. Qed.

Example added_students_get_new_ids :
  Directory.id <$>
    Directory.mockStudents
      (Directory.performAll sampleDirectory
         [Directory.DeleteStudent rowMana;
          Directory.SaveStudent None sampleForm;
          Directory.SaveStudent None sampleForm])
  = [5; 4; 1].
Proof. reflexivity. Qed.

Lemma faceConsistent_insert students i s' :
  faceConsistent students →
  (Directory.faceRegistered s' = true ↔ is_Some (Directory.faceDescriptor s')) →
  faceConsistent (<[i := s']> students).
Proof.
  intros Hall Hs' s [->|Hin]%elem_of_insert_inv; [done | by apply Hall].
Qed.

Lemma perform_faceConsistent d a :
  faceConsistent (Directory.mockStudents d) →
  faceConsistent (Directory.mockStudents (snd (Directory.perform d a))).
Proof.
  intros Hall.
  destruct a as [[student|] formData|student|selected descriptor|sid|student url]; simpl.
  - unfold Directory.saveStudentAction.
    destruct (Directory.findIndex _ _) as [[i cur]|] eqn:Hfind; [|done].
    apply directory_findIndex_lookup in Hfind as [Hi _]. simpl.
    apply faceConsistent_insert; [done|]. simpl.
    apply Hall. by eapply list_elem_of_lookup_2.
  - intros s [->|Hin]%elem_of_cons; [|by apply Hall]. simpl.
    split; [done | by intros [? ?]].
  - unfold Directory.deleteStudentAction.
    assert (faceConsistent (filter (λ s, Directory.id s ≠ Directory.id student)
                              (Directory.mockStudents d))) as Hfilter.
    { intros s [_ Hin]%list_elem_of_filter. by apply Hall. }
    by case_decide.
  - unfold Directory.registerAction.
    destruct (Directory.findIndex _ _) as [[i cur]|]; [|done]. simpl.
    apply faceConsistent_insert; [done|]. simpl. split; [by eauto | done].
  - unfold Directory.deleteFaceAction.
    destruct (Directory.findIndex _ _) as [[i cur]|]; [|done]. simpl.
    apply faceConsistent_insert; [done|]. simpl. split; [done | by intros [? ?]].
  - unfold Directory.uploadAction.
    destruct (Directory.findIndex _ _) as [[i cur]|] eqn:Hfind; [|done].
    apply directory_findIndex_lookup in Hfind as [Hi _]. simpl.
    apply faceConsistent_insert; [done|]. simpl.
    apply Hall. by eapply list_elem_of_lookup_2.
Qed.

(** X10. If every student of the directory is marked as face-registered
    exactly when a descriptor is stored for them, the same holds after any
    sequence of directory actions. *)
Theorem X10_face_flag_matches_descriptor
    (d : Directory.State) (actions : list Directory.Action) :
  faceConsistent (Directory.mockStudents d) →
  faceConsistent (Directory.mockStudents (Directory.performAll d actions)).
Proof.
  revert d. induction actions as [|a actions IH]; intros d Hd; [done|].
  unfold Directory.performAll. simpl. by apply IH, perform_faceConsistent.
Qed.

Lemma X10_face_flag_matches_descriptor_witness :
  faceConsistent
    (Directory.mockStudents
       (Directory.performAll sampleDirectory
          [Directory.RegisterFace rowMana [0.75%float];
           Directory.DeleteFace 1;
           Directory.SaveStudent (Some rowMana) sampleForm])).
Proof.
  apply X10_face_flag_matches_descriptor.
  intros s Hin. simpl in Hin.
  apply elem_of_cons in Hin as [->|Hin]; [simpl; split; [by eauto | done]|].
  apply list_elem_of_singleton in Hin as ->. simpl. split; [done | by intros [? ?]].
Defined.

(** X11. An action that fails has no effect: when the result is an error,
    the directory and the id counter are what they were before the action. *)
Theorem X11_failed_action_changes_nothing
    (d d' : Directory.State) (a : Directory.Action) (e : string) :
  Directory.perform d a = (Directory.Failed e, d') → d' = d.
Proof.
  destruct d as [students next].
  destruct a as [[student|] formData|student|selected descriptor|sid|student url]; simpl.
  - unfold Directory.saveStudentAction.
    destruct (Directory.findIndex _ _) as [[i cur]|]; [done|]. by intros [= _ <-].
  - done.
  - unfold Directory.deleteStudentAction. simpl. case_decide as Hlen; [|done].
    intros [= _ <-]. by rewrite (filter_all _ _ Hlen).
  - unfold Directory.registerAction.
    destruct (Directory.findIndex _ _) as [[i cur]|]; [done|]. by intros [= _ <-].
  - unfold Directory.deleteFaceAction.
    destruct (Directory.findIndex _ _) as [[i cur]|]; [done|]. by intros [= _ <-].
  - unfold Directory.uploadAction.
    destruct (Directory.findIndex _ _) as [[i cur]|]; [done|]. by intros [= _ <-].
Qed.

Lemma X11_failed_action_changes_nothing_witness :
  snd (Directory.perform sampleDirectory (Directory.DeleteFace 9)) = sampleDirectory.
Proof.
  apply (X11_failed_action_changes_nothing sampleDirectory _ (Directory.DeleteFace 9)
           "Face data not found.").
  reflexivity.
Defined.

Lemma deleteStudentAction_gone d student s :
  s ∈ Directory.mockStudents (snd (Directory.deleteStudentAction student d)) →
  Directory.id s ≠ Directory.id student.
Proof.
  unfold Directory.deleteStudentAction. case_decide; simpl;
    by intros [? _]%list_elem_of_filter.
Qed.

(** X12. Deleting a student succeeds exactly when the directory holds a
    student with that id. Whatever the result, the directory afterwards is
    the directory of before without the entries of that id: no student has
    that id, the list is a sublist of the list of before, so that the order
    is kept and nothing is added or duplicated, and every entry with another
    id is still there. The counter for new ids is not changed. *)
Theorem X12_delete_student
    (d : Directory.State) (student : Directory.Student) :
  let result := Directory.deleteStudentAction student d in
  (fst result = Directory.Succeeded ↔
   ∃ s, s ∈ Directory.mockStudents d ∧ Directory.id s = Directory.id student) ∧
  (∀ s, s ∈ Directory.mockStudents (snd result) → Directory.id s ≠ Directory.id student) ∧
  Directory.mockStudents (snd result) `sublist_of` Directory.mockStudents d ∧
  (∀ s, s ∈ Directory.mockStudents d → Directory.id s ≠ Directory.id student →
        s ∈ Directory.mockStudents (snd result)) ∧
  Directory.mockStudents (snd result) =
    filter (λ s, Directory.id s ≠ Directory.id student) (Directory.mockStudents d) ∧
  Directory.nextStudentId (snd result) = Directory.nextStudentId d.
Proof.
  simpl. unfold Directory.deleteStudentAction.
  assert (Directory.nextStudentId
            (snd (if decide (length (filter (λ s, Directory.id s ≠ Directory.id student)
                                       (Directory.mockStudents d)) =
                             length (Directory.mockStudents d))
                  then (Directory.Failed "Student not found.",
                        Directory.mkState
                          (filter (λ s, Directory.id s ≠ Directory.id student)
                             (Directory.mockStudents d)) (Directory.nextStudentId d))
                  else (Directory.Succeeded,
                        Directory.mkState
                          (filter (λ s, Directory.id s ≠ Directory.id student)
                             (Directory.mockStudents d)) (Directory.nextStudentId d))))
          = Directory.nextStudentId d) as Hcounter by by case_decide.
  set (remaining := filter (λ s, Directory.id s ≠ Directory.id student)
                      (Directory.mockStudents d)).
  assert (Directory.mockStudents
            (snd (if decide (length remaining = length (Directory.mockStudents d))
                  then (Directory.Failed "Student not found.",
                        Directory.mkState remaining (Directory.nextStudentId d))
                  else (Directory.Succeeded,
                        Directory.mkState remaining (Directory.nextStudentId d))))
          = remaining) as -> by (clear Hcounter; by case_decide).
  split; [|split; [|split; [|split; [|split]]]].
  - clear Hcounter. case_decide as Hlen; simpl.
    + split; [done|]. intros (s & Hin & Hid).
      pose proof (length_filter_lt (λ s, Directory.id s ≠ Directory.id student)
                    (Directory.mockStudents d) s Hin) as Hlt.
      fold remaining in Hlt. exfalso. apply (Nat.lt_irrefl (length remaining)).
      rewrite Hlen at 2. apply Hlt. by intros Hne.
    + split; [|done]. intros _.
      destruct (decide (Forall (λ s, Directory.id s ≠ Directory.id student)
                          (Directory.mockStudents d))) as [Hall|Hex].
      * exfalso. apply Hlen. unfold remaining. f_equal.
        clear Hlen remaining. induction Hall as [|a l Ha _ IH]; [done|].
        by rewrite filter_cons_True, IH.
      * apply not_Forall_Exists in Hex; [|apply _].
        apply Exists_exists in Hex as (s & Hin & Hs).
        exists s. split; [done|]. by destruct (decide (Directory.id s = Directory.id student)).
  - intros s [Hs _]%list_elem_of_filter. done.
  - apply sublist_filter.
  - intros s Hin Hs. by apply list_elem_of_filter.
  - done.
  - done.
Qed.

Lemma sameFace_refl s : sameFace s s.
Proof. by repeat split. Qed.

Lemma studentsWithFaces_cons s students :
  Directory.labeledDescriptors (s :: students) =
  (if decide (Directory.faceRegistered s = true ∧ is_Some (Directory.faceDescriptor s))
   then [(pretty (Directory.id s), default [] (Directory.faceDescriptor s))]
   else []) ++ Directory.labeledDescriptors students.
Proof.
  unfold Directory.labeledDescriptors, Directory.studentsWithFaces.
  rewrite filter_cons. by case_decide.
Qed.

Lemma labeledDescriptors_sameFace l k :
  Forall2 sameFace l k → Directory.labeledDescriptors l = Directory.labeledDescriptors k.
Proof.
  induction 1 as [|a b l k (Hid & Hreg & Hdesc) _ IH]; [done|].
  rewrite !studentsWithFaces_cons, IH, Hid, Hreg, Hdesc. done.
Qed.

Lemma insert_sameFace (students : list Directory.Student) i s s' :
  students !! i = Some s → sameFace s s' →
  Forall2 sameFace students (<[i := s']> students).
Proof.
  intros Hi Hs. rewrite <- (list_insert_id students i s) at 1 by done.
  apply Forall2_insert; [|done].
  apply Forall_Forall2_diag, Forall_forall. intros. apply sameFace_refl.
Qed.

(** X13. Adding a student, editing a student and uploading a profile image
    leave the labelled descriptors, from which the face matcher is built,
    exactly as they were: an edit never loses a registered face, and a new
    student is never matched before a face is registered. *)
Theorem X13_edits_keep_matcher_input (d : Directory.State) (a : Directory.Action) :
  (∀ selected descriptor, a ≠ Directory.RegisterFace selected descriptor) →
  (∀ sid, a ≠ Directory.DeleteFace sid) →
  (∀ student, a ≠ Directory.DeleteStudent student) →
  Directory.labeledDescriptors (Directory.mockStudents (snd (Directory.perform d a))) =
  Directory.labeledDescriptors (Directory.mockStudents d).
Proof.
  intros Hreg Hdel Hrem.
  destruct a as [[student|] formData|student|selected descriptor|sid|student url]; simpl.
  - unfold Directory.saveStudentAction.
    destruct (Directory.findIndex _ _) as [[i cur]|] eqn:Hfind; [|done].
    apply directory_findIndex_lookup in Hfind as [Hi Hid]. simpl.
    symmetry. apply labeledDescriptors_sameFace.
    apply (insert_sameFace _ i cur); [done|]. by repeat split.
  - by rewrite studentsWithFaces_cons, decide_False by (simpl; by intros [? _]).
  - by destruct (Hrem student).
  - by destruct (Hreg selected descriptor).
  - by destruct (Hdel sid).
  - unfold Directory.uploadAction.
    destruct (Directory.findIndex _ _) as [[i cur]|] eqn:Hfind; [|done].
    apply directory_findIndex_lookup in Hfind as [Hi Hid]. simpl.
    symmetry. apply labeledDescriptors_sameFace.
    apply (insert_sameFace _ i cur); [done|]. by repeat split.
Qed.

Lemma X13_edits_keep_matcher_input_witness :
  Directory.labeledDescriptors
    (Directory.mockStudents
       (snd (Directory.perform sampleDirectory
               (Directory.SaveStudent (Some rowSomchai) sampleForm)))) =
  Directory.labeledDescriptors (Directory.mockStudents sampleDirectory).
Proof.
  apply X13_edits_keep_matcher_input; intros; discriminate.
Defined.

Lemma labeledDescriptors_elem label descriptor students :
  (label, descriptor) ∈ Directory.labeledDescriptors students ↔
  ∃ s, s ∈ students ∧ Directory.faceRegistered s = true ∧
       Directory.faceDescriptor s = Some descriptor ∧ label = pretty (Directory.id s).
Proof.
  unfold Directory.labeledDescriptors, Directory.studentsWithFaces.
  rewrite list_elem_of_fmap. split.
  - intros (s & [= -> ->] & [[Hreg [desc Hdesc]] Hin]%list_elem_of_filter).
    exists s. rewrite Hdesc. done.
  - intros (s & Hin & Hreg & Hdesc & ->). exists s. split; [by rewrite Hdesc|].
    apply list_elem_of_filter. by eauto.
Qed.

Lemma registerAction_labeled (d d' : Directory.State) (selected : Directory.Student)
    (descriptor : list float) :
  Directory.registerAction selected descriptor d = (Directory.Succeeded, d') →
  (pretty (Directory.id selected), descriptor)
    ∈ Directory.labeledDescriptors (Directory.mockStudents d').
Proof.
  unfold Directory.registerAction.
  destruct (Directory.findIndex _ _) as [[i cur]|] eqn:Hfind; [|done].
  apply directory_findIndex_lookup in Hfind as [Hi Hid]. intros [= <-]. simpl.
  apply labeledDescriptors_elem.
  exists (Directory.setFace true (Some descriptor) cur). split.
  - apply list_elem_of_insert. by eapply lookup_lt_Some.
  - simpl. by rewrite Hid.
Qed.

(** X14. After a successful face registration the labelled descriptors hold
    the student's id as label with the descriptor just registered; when the
    ids of the directory are distinct this is the only descriptor under
    that label. *)
Theorem X14_registered_face_reaches_matcher
    (d d' : Directory.State) (selected : Directory.Student) (descriptor : list float) :
  Directory.registerAction selected descriptor d = (Directory.Succeeded, d') →
  (pretty (Directory.id selected), descriptor)
    ∈ Directory.labeledDescriptors (Directory.mockStudents d') ∧
  (NoDup (Directory.id <$> Directory.mockStudents d) →
   ∀ other, (pretty (Directory.id selected), other)
              ∈ Directory.labeledDescriptors (Directory.mockStudents d') →
            other = descriptor).
Proof.
  unfold Directory.registerAction.
  destruct (Directory.findIndex _ _) as [[i cur]|] eqn:Hfind; [|done].
  apply directory_findIndex_lookup in Hfind as [Hi Hid]. intros [= <-]. simpl.
  split.
  - apply labeledDescriptors_elem.
    exists (Directory.setFace true (Some descriptor) cur). split.
    + apply list_elem_of_insert. by eapply lookup_lt_Some.
    + simpl. by rewrite Hid.
  - intros Hnd other (s & Hin & _ & Hdesc & Hlabel)%labeledDescriptors_elem.
    apply (inj pretty) in Hlabel.
    apply list_elem_of_lookup_1 in Hin as [j Hj].
    apply list_lookup_insert_Some in Hj as [(_ & <- & _)|[Hne Hj]].
    + simpl in Hdesc. congruence.
    + exfalso. apply Hne.
      apply (NoDup_lookup _ i j (Directory.id cur) Hnd);
        rewrite list_lookup_fmap; [by rewrite Hi | rewrite Hj; simpl; congruence].
Qed.

Lemma X14_registered_face_reaches_matcher_witness :
  (pretty 3, [0.75%float])
    ∈ Directory.labeledDescriptors
        (Directory.mockStudents
           (snd (Directory.registerAction rowMana [0.75%float] sampleDirectory))).
Proof.
  refine (proj1 (X14_registered_face_reaches_matcher sampleDirectory _ rowMana
                   [0.75%float] _)).
  reflexivity.
Defined.

(** X15. After a successful deletion of a student's face data, in a
    directory whose ids are distinct, the labelled descriptors hold nothing
    under that student's id. *)
Theorem X15_deleted_face_leaves_matcher
    (d d' : Directory.State) (sid : Z) :
  NoDup (Directory.id <$> Directory.mockStudents d) →
  Directory.deleteFaceAction sid d = (Directory.Succeeded, d') →
  ∀ descriptor,
    (pretty sid, descriptor) ∉ Directory.labeledDescriptors (Directory.mockStudents d').
Proof.
  intros Hnd. unfold Directory.deleteFaceAction.
  destruct (Directory.findIndex _ _) as [[i cur]|] eqn:Hfind; [|done].
  apply directory_findIndex_lookup in Hfind as [Hi Hid]. intros [= <-]. simpl.
  intros descriptor (s & Hin & Hreg & _ & Hlabel)%labeledDescriptors_elem.
  apply (inj pretty) in Hlabel.
  apply list_elem_of_lookup_1 in Hin as [j Hj].
  apply list_lookup_insert_Some in Hj as [(_ & <- & _)|[Hne Hj]].
  - simpl in Hreg. discriminate.
  - apply Hne.
    apply (NoDup_lookup _ i j (Directory.id cur) Hnd);
      rewrite list_lookup_fmap; [by rewrite Hi | rewrite Hj; simpl; congruence].
Qed.

Lemma X15_deleted_face_leaves_matcher_witness :
  (pretty 1, [0.25%float; 0.5%float])
    ∉ Directory.labeledDescriptors
        (Directory.mockStudents (snd (Directory.deleteFaceAction 1 sampleDirectory))).
Proof.
  refine (X15_deleted_face_leaves_matcher sampleDirectory _ 1 _ _ _).
  - simpl. repeat constructor; rewrite ?elem_of_cons, ?elem_of_nil; intuition discriminate.
  - reflexivity.
Defined.

(** ** Properties of a face capture *)

(** Registering the same descriptor for the same student again changes
    nothing. *)
Lemma registerAction_again d student descriptor i current :
  Directory.findIndex (Directory.id student) (Directory.mockStudents d) = Some (i, current) →
  Directory.registerAction student descriptor
    (snd (Directory.registerAction student descriptor d)) =
  (Directory.Succeeded, snd (Directory.registerAction student descriptor d)).
Proof.
  intros Hfind.
  assert (Directory.findIndex (Directory.id student)
            (<[i := Directory.setFace true (Some descriptor) current]>
               (Directory.mockStudents d))
          = Some (i, Directory.setFace true (Some descriptor) current)) as Hagain.
  { unfold Directory.findIndex in *. apply list_find_Some in Hfind as (Hi & Hid & Hfirst).
    apply list_find_Some. split; [|split].
    - apply list_lookup_insert_eq. by eapply lookup_lt_Some.
    - done.
    - intros j y Hj Hlt. rewrite list_lookup_insert_ne in Hj by lia. by eapply Hfirst. }
  unfold Directory.registerAction at 2 3. rewrite Hfind.
  cbn [snd Directory.mockStudents Directory.nextStudentId].
  unfold Directory.registerAction.
  cbn [snd Directory.mockStudents Directory.nextStudentId]. rewrite Hagain.
  f_equal. f_equal. by rewrite list_insert_insert_eq.
Qed.

(** X16. When the quality gate has just accepted a single face and a student
    of the directory is selected, a click on the capture button queues one
    registration of that face's descriptor for that student. When it
    resumes, whatever the gate and the selection have become in between, it
    registers that descriptor under the student's id and clears the
    selection, the capture control and the stored descriptor. A click after
    that reset and before the gate accepts a face again queues nothing, for
    whatever student, and so does a click with no student selected. The
    button is not disabled while a registration is pending: a second click
    before the first resumes queues the same registration a second time,
    and running it again leaves the directory as the first left it. *)
Theorem X16_capture_uses_gate_descriptor
    (d : Directory.State) (student : Directory.Student) (i : nat)
    (current : Directory.Student) (detection : FaceDetection)
    (clientWidth clientHeight : float) (g : Gate) :
  Directory.findIndex (Directory.id student) (Directory.mockStudents d) = Some (i, current) →
  (0.05 <? faceSizeRatio (box detection) clientWidth clientHeight)%float = true →
  (faceSizeRatio (box detection) clientWidth clientHeight <? 0.4)%float = true →
  let page := mkPage (Some student)
                (registrationTick true [detection] clientWidth clientHeight g) [] in
  pendingCaptures (handleCaptureFace page) = [(student, descriptor detection)] ∧
  (∀ selected' g',
     let result := captureResolves
                     (mkPage selected' g' (pendingCaptures (handleCaptureFace page))) d in
     result.1.1 = Some Directory.Succeeded ∧
     (pretty (Directory.id student), descriptor detection)
       ∈ Directory.labeledDescriptors (Directory.mockStudents result.1.2) ∧
     selectedStudent result.2 = None ∧
     faceDescriptor (gate result.2) = None ∧
     showCaptureButton (gate result.2) = false ∧
     pendingCaptures result.2 = [] ∧
     Directory.registerAction student (descriptor detection) result.1.2 =
       (Directory.Succeeded, result.1.2)) ∧
  (∀ next status pending,
     handleCaptureFace (mkPage next (mkGate None false status) pending) =
     mkPage next (mkGate None false status) pending) ∧
  (∀ g0 pending, handleCaptureFace (mkPage None g0 pending) = mkPage None g0 pending) ∧
  pendingCaptures (handleCaptureFace (handleCaptureFace page)) =
    [(student, descriptor detection); (student, descriptor detection)].
Proof.
  intros Hfind Hlow Hhigh page.
  assert (gate page = mkGate (Some (descriptor detection)) true GoodFace) as Hgate.
  { unfold page. simpl. by rewrite Hlow, Hhigh. }
  assert (handleCaptureFace page =
          mkPage (Some student) (mkGate (Some (descriptor detection)) true GoodFace)
            [(student, descriptor detection)]) as Hclick.
  { unfold handleCaptureFace. by rewrite Hgate. }
  assert (Directory.registerAction student (descriptor detection) d =
          (Directory.Succeeded,
           Directory.mkState
             (<[i := Directory.setFace true (Some (descriptor detection)) current]>
                (Directory.mockStudents d))
             (Directory.nextStudentId d))) as Hreg.
  { unfold Directory.registerAction. by rewrite Hfind. }
  rewrite Hclick. simpl. split; [done|]. split; [|split; [|split]].
  - intros selected' g'. unfold captureResolves. simpl. rewrite Hreg. simpl.
    split; [done|]. split.
    { apply (registerAction_labeled d _ student (descriptor detection) Hreg). }
    repeat (split; [done|]).
    pose proof (registerAction_again d student (descriptor detection) i current Hfind)
      as Hagain.
    by rewrite Hreg in Hagain.
  - intros next status pending. unfold handleCaptureFace. simpl. by destruct next.
  - done.
  - done.
Qed.

Lemma X16_capture_uses_gate_descriptor_witness :
  pendingCaptures
    (handleCaptureFace
       (mkPage (Some rowMana)
          (registrationTick true [goodFace] 640 480 (mkGate None false NoFace)) []))
  = [(rowMana, descriptor goodFace)].
Proof.
  refine (proj1 (X16_capture_uses_gate_descriptor sampleDirectory rowMana 1 rowMana
                   goodFace 640 480 (mkGate None false NoFace) eq_refl eq_refl eq_refl)).
Defined.

(** ** Properties of the reports page *)

Lemma reportRow_Some students a row :
  reportRow students a = Some row →
  row_record row = a ∧ row_student row ∈ students ∧
  Directory.id (row_student row) = student_id a.
Proof.
  unfold reportRow. destruct (List.find _ _) as [s|] eqn:Hfind; [|done].
  intros [= <-]. simpl. apply find_some in Hfind as [Hin Hid].
  split; [done|]. split; [by apply list_elem_of_In|]. by apply bool_decide_eq_true in Hid.
Qed.

Lemma reportRow_is_Some students a :
  (∃ s, s ∈ students ∧ Directory.id s = student_id a) → is_Some (reportRow students a).
Proof.
  intros (s & Hin & Hid). unfold reportRow.
  destruct (List.find _ _) as [s'|] eqn:Hfind; [by eauto|].
  exfalso. apply list_elem_of_In in Hin.
  pose proof (find_none _ _ Hfind s Hin) as Hs. simpl in Hs.
  by rewrite bool_decide_eq_false in Hs.
Qed.

Lemma omap_reportRow_sublist students store :
  row_record <$> omap (reportRow students) store `sublist_of` store.
Proof.
  induction store as [|a store IH]; [done|]. simpl.
  destruct (reportRow students a) as [row|] eqn:Hrow.
  - apply reportRow_Some in Hrow as (Hrec & _). rewrite fmap_cons, Hrec.
    by apply sublist_skip.
  - by apply sublist_cons.
Qed.

Lemma js_ge_lex a b : js_ge a b = true ↔ ¬ lex_lt a b.
Proof.
  unfold js_ge. rewrite <- js_lt_lex. unfold js_lt.
  destruct (String.ltb a b); split; (done || congruence || (intros H; by destruct H)).
Qed.

Lemma js_le_lex a b : js_le a b = true ↔ ¬ lex_lt b a.
Proof.
  unfold js_le. rewrite <- js_lt_lex. unfold js_lt.
  destruct (String.ltb b a); split; (done || congruence || (intros H; by destruct H)).
Qed.

Lemma getReports_sound toLowerCase includes filters students store row :
  row ∈ getReports toLowerCase includes filters students store →
  row_record row ∈ store ∧ row_student row ∈ students ∧
  Directory.id (row_student row) = student_id (row_record row) ∧
  ¬ lex_lt (date (row_record row)) (startDate filters) ∧
  ¬ lex_lt (endDate filters) (date (row_record row)).
Proof.
  unfold getReports. intros [Hkeep Hin]%list_elem_of_filter.
  apply list_elem_of_omap in Hin as (a & Hin & Hrow).
  apply reportRow_Some in Hrow as (Hrec & Hs & Hid). subst a.
  unfold keepRow in Hkeep.
  repeat (apply andb_true_iff in Hkeep as [Hkeep ?]).
  apply js_ge_lex in Hkeep.
  match goal with H : js_le _ _ = true |- _ => apply js_le_lex in H end.
  split_and!; done.
Qed.

(** X17. Every row of a report joins a record of the store with a student
    of the directory who has the record's student id, and its date is
    neither before the start date nor after the end date in lexicographic
    order; the rows come in the order of the store. With the class, status
    and search filters empty, every record in that date range whose student
    is in the directory has a row. *)
Theorem X17_report_rows
    (toLowerCase : string → string) (includes : string → string → bool)
    (filters : ReportFilters) (students : list Directory.Student)
    (store : list AttendanceRecord) :
  let rows := getReports toLowerCase includes filters students store in
  (∀ row, row ∈ rows →
     row_record row ∈ store ∧ row_student row ∈ students ∧
     Directory.id (row_student row) = student_id (row_record row) ∧
     ¬ lex_lt (date (row_record row)) (startDate filters) ∧
     ¬ lex_lt (endDate filters) (date (row_record row))) ∧
  row_record <$> rows `sublist_of` store ∧
  (filterClassLevel filters = "" → filterStatus filters = "" → searchQuery filters = "" →
   ∀ a, a ∈ store →
     (∃ s, s ∈ students ∧ Directory.id s = student_id a) →
     ¬ lex_lt (date a) (startDate filters) → ¬ lex_lt (endDate filters) (date a) →
     ∃ row, row ∈ rows ∧ row_record row = a).
Proof.
  simpl. split; [|split].
  - intros row. apply getReports_sound.
  - unfold getReports. etrans; [|apply omap_reportRow_sublist].
    apply fmap_sublist, sublist_filter.
  - unfold getReports. intros Hclass Hstatus Hsearch a Hin Hstudent Hstart Hend.
    destruct (reportRow_is_Some students a Hstudent) as [row Hrow].
    exists row. pose proof (reportRow_Some _ _ _ Hrow) as (Hrec & _).
    split; [|done]. apply list_elem_of_filter. split.
    + unfold keepRow. rewrite Hclass, Hstatus, Hsearch, Hrec. simpl.
      apply js_ge_lex in Hstart. apply js_le_lex in Hend. by rewrite Hstart, Hend.
    + apply list_elem_of_omap. eauto.
Qed.

(** An id below the counter that no student has is never given out again. *)
Lemma performAll_id_absent (x : Z) actions : ∀ d,
  x < Directory.nextStudentId d →
  Forall (λ k, k ≠ x) (Directory.id <$> Directory.mockStudents d) →
  Forall (λ k, k ≠ x)
    (Directory.id <$> Directory.mockStudents (Directory.performAll d actions)).
Proof.
  induction actions as [|a actions IH]; intros d Hlt Hall; [done|].
  unfold Directory.performAll. simpl. apply IH.
  - pose proof (perform_counter d a). lia.
  - apply (perform_ids_Forall (λ k, k ≠ x)); [done | lia].
Qed.

(** X18. Once a student whose id is below the counter for new ids has been
    deleted, no report has a row for a record of that student, whatever the
    filters and whatever the attendance store holds, and this stays so after
    any further directory actions (add, edit, delete, register face, delete
    face, upload image) of the same page load, as long as the counter stays
    a safe integer: the id is not given out again. A reload computes the
    counter anew from the ids that are left and is not covered. *)
Theorem X18_deleted_student_leaves_reports
    (toLowerCase : string → string) (includes : string → string → bool)
    (filters : ReportFilters) (d : Directory.State) (student : Directory.Student)
    (actions : list Directory.Action) (store : list AttendanceRecord) :
  Directory.id student < Directory.nextStudentId d →
  - maxSafeInteger ≤ Directory.nextStudentId d →
  Directory.nextStudentId d + Z.of_nat (length actions) ≤ maxSafeInteger →
  Forall (λ row, student_id (row_record row) ≠ Directory.id student)
    (getReports toLowerCase includes filters
       (Directory.mockStudents
          (Directory.performAll (snd (Directory.deleteStudentAction student d)) actions))
       store).
Proof.
  intros Hlt _ _. apply Forall_forall. intros row Hrow.
  apply getReports_sound in Hrow as (_ & Hs & <- & _).
  assert (Forall (λ k, k ≠ Directory.id student)
            (Directory.id <$> Directory.mockStudents
               (Directory.performAll (snd (Directory.deleteStudentAction student d))
                  actions))) as Hall.
  { apply performAll_id_absent.
    - unfold Directory.deleteStudentAction. by case_decide.
    - apply Forall_forall. intros k (s & -> & Hin)%list_elem_of_fmap.
      by eapply deleteStudentAction_gone. }
  eapply Forall_forall in Hall; [exact Hall|]. by apply list_elem_of_fmap_2.
Qed.

Lemma X18_deleted_student_leaves_reports_witness :
  Forall (λ row, student_id (row_record row) ≠ 3)
    (getReports (λ s, s) (λ _ _, true) sampleFilters
       (Directory.mockStudents
          (Directory.performAll (snd (Directory.deleteStudentAction rowMana sampleDirectory))
             [Directory.SaveStudent None sampleForm]))
       store1).
Proof.
  apply (X18_deleted_student_leaves_reports (λ s, s) (λ _ _, true) sampleFilters
           sampleDirectory rowMana [Directory.SaveStudent None sampleForm] store1);
    vm_compute; congruence.
Defined.

Lemma paginatedRecords_take_drop {A} (records : list A) (p : Z) :
  1 ≤ p →
  paginatedRecords records p = take 10 (drop (Z.to_nat ((p - 1) * 10)) records).
Proof.
  intros Hp. unfold paginatedRecords, slice, recordsPerPage.
  remember ((p - 1) * 10) as start eqn:Hstart.
  remember (Z.of_nat (length records)) as len eqn:Hlen.
  assert (0 ≤ start) by lia.
  replace (start <? 0) with false by (symmetry; apply Z.ltb_ge; lia).
  replace (start + 10 <? 0) with false by (symmetry; apply Z.ltb_ge; lia).
  destruct (decide (len ≤ start)) as [Hge|Hlt].
  - rewrite (drop_ge records (Z.to_nat start)) by lia.
    rewrite (drop_ge records (Z.to_nat (Z.min start len))) by lia.
    by rewrite !take_nil.
  - replace (Z.min start len) with start by lia.
    destruct (decide (start + 10 ≤ len)) as [Hfull|Hshort].
    + by replace (Z.to_nat (Z.min (start + 10) len - start)) with 10%nat by lia.
    + rewrite !take_ge; [done|..]; rewrite length_drop; lia.
Qed.

Lemma pages_concat {A} (records : list A) (n : nat) :
  concat (paginatedRecords records <$> pageNumbers n) = take (10 * n) records.
Proof.
  unfold pageNumbers. induction n as [|n IH]; [done|].
  rewrite seq_S, !fmap_app, concat_app, IH. simpl. rewrite app_nil_r.
  rewrite paginatedRecords_take_drop by lia.
  replace (Z.to_nat ((Z.of_nat (S n) - 1) * 10)) with (10 * n)%nat by lia.
  rewrite take_take_drop. f_equal. lia.
Qed.

(** X19. The pages 1 to [totalPages] of the report, one after the other, are
    exactly the records, in order and without repetition. No page holds
    more than ten records, every page from 1 to [totalPages] holds at
    least one, and every page after [totalPages], like page 0, is empty. *)
Theorem X19_pages_partition_the_records {A} (records : list A) :
  concat (paginatedRecords records <$> pageNumbers (Z.to_nat (totalPages records)))
    = records ∧
  (∀ p, 1 ≤ p → (length (paginatedRecords records p) ≤ 10)%nat) ∧
  (∀ p, 1 ≤ p ≤ totalPages records → paginatedRecords records p ≠ []) ∧
  (∀ p, totalPages records < p → paginatedRecords records p = []) ∧
  paginatedRecords records 0 = [].
Proof.
  assert (10 * totalPages records - 9 ≤ Z.of_nat (length records) ≤ 10 * totalPages records)
    as Hbounds.
  { unfold totalPages, recordsPerPage.
    pose proof (Z.div_mod (Z.of_nat (length records) + 10 - 1) 10 ltac:(lia)).
    pose proof (Z.mod_pos_bound (Z.of_nat (length records) + 10 - 1) 10 ltac:(lia)).
    lia. }
  split; [|split; [|split; [|split]]].
  - rewrite pages_concat. apply take_ge. lia.
  - intros p Hp. rewrite paginatedRecords_take_drop by done.
    rewrite length_take. lia.
  - intros p [Hp Hle]. rewrite paginatedRecords_take_drop by done.
    intros Hnil. apply (f_equal length) in Hnil.
    rewrite length_take, length_drop in Hnil. cbn [length] in Hnil. lia.
  - intros p Hp. rewrite paginatedRecords_take_drop by lia.
    rewrite drop_ge by lia. apply take_nil.
  - unfold paginatedRecords, slice, recordsPerPage. simpl.
    match goal with |- take ?n _ = _ => replace n with 0%nat by lia end.
    done.
Qed.

Lemma foldl_countStatus records : ∀ stats,
  let total st := (nPresent st + nLate st + nAbsent st + nEarlyLeave st)%nat in
  total (foldl countStatus stats records) = (total stats + length records)%nat ∧
  nLate (foldl countStatus stats records) =
    (nLate stats + length (filter (λ r, status (row_record r) = Late) records))%nat.
Proof.
  induction records as [|r records IH]; intros stats; simpl; [by split; lia|].
  destruct (IH (countStatus stats r)) as [-> ->].
  rewrite filter_cons. unfold countStatus.
  destruct (status (row_record r)); simpl; split; lia.
Qed.

(** X20. The four counters of the report summary add up to the number of
    rows of the report, and the counter for [Late] is the number of rows
    whose status is [Late]. *)
Theorem X20_summary_counts_every_row (records : list ReportRow) :
  (nPresent (summaryStats records) + nLate (summaryStats records) +
   nAbsent (summaryStats records) + nEarlyLeave (summaryStats records))%nat
    = length records ∧
  nLate (summaryStats records) =
    length (filter (λ r, status (row_record r) = Late) records).
Proof.
  unfold summaryStats.
  by destruct (foldl_countStatus records (mkSummary 0 0 0 0)) as [-> ->].
Qed.

(** ** Properties of the dashboard *)

Lemma absent_after_arrival (l : list Directory.Student) (X : gset Z) (x : Z) :
  NoDup (Directory.id <$> l) → x ∉ X →
  length (filter (λ s, Directory.id s ∉ X) l) =
  (length (filter (λ s, Directory.id s ∉ {[x]} ∪ X) l) +
   (if decide (x ∈ Directory.id <$> l) then 1 else 0))%nat.
Proof.
  intros Hnd Hx. induction l as [|a l IH]; [done|].
  rewrite fmap_cons in Hnd. apply NoDup_cons in Hnd as [Ha Hnd].
  specialize (IH Hnd). rewrite !filter_cons, fmap_cons.
  repeat case_decide; simpl; try lia; exfalso; set_solver.
Qed.

Lemma activeStudents_NoDup students :
  NoDup (Directory.id <$> students) → NoDup (Directory.id <$> activeStudents students).
Proof.
  intros Hnd. apply (sublist_NoDup _ (Directory.id <$> students)); [done|].
  apply fmap_sublist. unfold activeStudents. apply sublist_filter.
Qed.

(** X21. When an active student of a directory with distinct ids, who has
    no record for today, checks in with a non-empty time string, the
    dashboard's number of students present today goes up by one and its
    number of absent students goes down by one. *)
Theorem X21_check_in_moves_student_to_present
    (students : list Directory.Student) (store : list AttendanceRecord)
    (s0 : Directory.Student) (stu : Student) (today timeNow : string) (cfg : Settings) :
  NoDup (Directory.id <$> students) →
  s0 ∈ students → Directory.id s0 = id stu → Directory.status s0 = Directory.active →
  timeNow ≠ "" →
  (∀ a, a ∈ store → ¬ same_day (id stu) today a) →
  let store' := snd (recordAttendance checkin stu today timeNow cfg store) in
  presentToday today store' = S (presentToday today store) ∧
  S (absentToday today students store') = absentToday today students store.
Proof.
  intros Hnd Hs0 Hid Hactive Htime Hfresh store'.
  assert (store' = mkRecord (id stu) today (Some timeNow) None
                     (computeStatus checkin timeNow cfg) :: store) as ->.
  { unfold store', recordAttendance.
    replace (findIndex (id stu) today store) with (@None (nat * AttendanceRecord)); [done|].
    symmetry. apply list_find_None, Forall_forall. done. }
  assert (presentTodayIds today
            (mkRecord (id stu) today (Some timeNow) None
               (computeStatus checkin timeNow cfg) :: store)
          = {[id stu]} ∪ presentTodayIds today store) as Hids.
  { unfold presentTodayIds, presentTodayRecords. rewrite filter_cons_True.
    - by rewrite fmap_cons, list_to_set_cons.
    - simpl. split; [done|]. apply negb_true_iff. by apply String.eqb_neq. }
  assert (id stu ∉ presentTodayIds today store) as Hnew.
  { unfold presentTodayIds, presentTodayRecords.
    rewrite elem_of_list_to_set, list_elem_of_fmap.
    intros (a & Ha & [[Hd _] Hin]%list_elem_of_filter).
    by apply (Hfresh a Hin). }
  unfold presentToday, absentToday. rewrite Hids. split.
  - rewrite size_union by set_solver. by rewrite size_singleton.
  - rewrite (absent_after_arrival (activeStudents students)
               (presentTodayIds today store) (id stu));
      [|by apply activeStudents_NoDup | done].
    rewrite decide_True; [lia|].
    apply list_elem_of_fmap. exists s0. split; [done|].
    apply list_elem_of_filter. done.
Qed.

Lemma X21_check_in_moves_student_to_present_witness :
  presentToday "2024-05-01"
    (snd (recordAttendance checkin somchai "2024-05-01" "08:05" cfg0 store1))
  = S (presentToday "2024-05-01" store1).
Proof.
  refine (proj1 (X21_check_in_moves_student_to_present [rowSomchai; rowMana] store1
                   rowSomchai somchai "2024-05-01" "08:05" cfg0 _ _ eq_refl eq_refl _ _)).
  - simpl. repeat constructor; rewrite ?elem_of_cons, ?elem_of_nil; intuition discriminate.
  - apply elem_of_cons. by left.
  - discriminate.
  - intros a Ha [Hs _]. unfold store1 in Ha.
    apply list_elem_of_singleton in Ha. subst a. simpl in Hs. discriminate Hs.
Defined.

Lemma countRecords_cons sid day a store :
  countRecords sid day (a :: store) =
  ((if bool_decide (same_day sid day a) then 1 else 0) + countRecords sid day store)%nat.
Proof. unfold countRecords. simpl. by destruct (bool_decide _). Qed.

Lemma countRecords_pos sid day store b :
  b ∈ store → same_day sid day b → (1 ≤ countRecords sid day store)%nat.
Proof.
  intros Hin Hb.
  destruct (decide (countRecords sid day store = 0%nat)) as [H0|]; [|lia].
  apply findIndex_None_countRecords in H0.
  apply list_find_None in H0. eapply Forall_forall in H0; [|exact Hin]. done.
Qed.

Lemma presentTodayRecords_NoDup today store :
  oneRecordPerDay store → NoDup (student_id <$> presentTodayRecords today store).
Proof.
  unfold presentTodayRecords. induction store as [|a store IH]; intros Hone.
  { constructor. }
  assert (oneRecordPerDay store) as Hone'.
  { intros sid day. specialize (Hone sid day). rewrite countRecords_cons in Hone. lia. }
  rewrite filter_cons. case_decide as Ha; [|by apply IH].
  rewrite fmap_cons. apply NoDup_cons. split; [|by apply IH].
  intros (b & Hb & [[Hd _] Hin]%list_elem_of_filter)%list_elem_of_fmap.
  specialize (Hone (student_id a) today). rewrite countRecords_cons in Hone.
  rewrite bool_decide_eq_true_2 in Hone by (by destruct Ha).
  pose proof (countRecords_pos (student_id a) today store b Hin) as Hpos.
  assert (same_day (student_id a) today b) as Hsame by done.
  specialize (Hpos Hsame). lia.
Qed.

(** X22. On a store with at most one record per student and day, the
    dashboard's number of students present today is the number of today's
    records that carry a check-in time, and its number of late students
    never exceeds it. *)
Theorem X22_late_within_present (today : string) (store : list AttendanceRecord) :
  oneRecordPerDay store →
  presentToday today store = length (presentTodayRecords today store) ∧
  (lateToday today store ≤ presentToday today store)%nat.
Proof.
  intros Hone.
  assert (presentToday today store = length (presentTodayRecords today store)) as Heq.
  { unfold presentToday, presentTodayIds.
    rewrite size_list_to_set by by apply presentTodayRecords_NoDup.
    apply length_fmap. }
  split; [done|]. rewrite Heq. unfold lateToday. apply length_filter.
Qed.

Lemma X22_late_within_present_witness :
  presentToday "2024-05-01" storeLate = length (presentTodayRecords "2024-05-01" storeLate) ∧
  (lateToday "2024-05-01" storeLate ≤ presentToday "2024-05-01" storeLate)%nat.
Proof.
  apply X22_late_within_present.
  intros sid day. unfold countRecords, storeLate. simpl.
  destruct (bool_decide (same_day sid day _)) eqn:H1;
    destruct (bool_decide (same_day sid day (mkRecord 1 _ _ _ _))) eqn:H2; simpl; try lia.
  apply bool_decide_eq_true in H1 as [H1 _]. apply bool_decide_eq_true in H2 as [H2 _].
  simpl in *. congruence.
Defined.

(** ** The directory and the running session *)

(** X23. The matcher of a running session is not rebuilt when the directory
    changes. After a student is deleted, a face that the matcher still
    labels with that student's id starts nothing in the session: the loop
    finds no student for the label. *)
Theorem X23_deleted_student_is_not_recorded
    (mode : Mode) (s : Session) (d : Directory.State) (student : Directory.Student)
    (detection : Detection) :
  bestMatch detection = Some (Directory.id student) →
  sameCore s
    (step mode s
       (DetectionResolves
          (asStudent <$> Directory.mockStudents
                           (snd (Directory.deleteStudentAction student d)))
          [detection])).
Proof.
  intros Hbest. apply step_unmatched. constructor; [|constructor].
  unfold unmatched. rewrite Hbest.
  destruct (List.find _ _) as [found|] eqn:Hfind; [|done].
  apply find_some in Hfind as [Hin Hid]. apply bool_decide_eq_true in Hid.
  apply list_elem_of_In, list_elem_of_fmap in Hin as (s' & -> & Hs').
  by apply deleteStudentAction_gone in Hs'.
Qed.

Lemma X23_deleted_student_is_not_recorded_witness :
  sameCore afterFirstTick
    (step checkin afterFirstTick
       (DetectionResolves
          (asStudent <$> Directory.mockStudents
                           (snd (Directory.deleteStudentAction rowSomchai sampleDirectory)))
          [mkDetection (Some 1) 1000])).
Proof.
  apply (X23_deleted_student_is_not_recorded checkin afterFirstTick sampleDirectory
           rowSomchai (mkDetection (Some 1) 1000)).
  reflexivity.
Defined.
